(** * ultra-mcp-ss: the request translation layer of [main.py]

    A shallow embedding of the proxy service: the video lookup adapter
    ([search_youtube_video], [get_youtube_video_link]), the nine methods of
    [SmartScreenClient] and the nine POST handlers that call them.

    Python values are an inductive type with dictionaries as finite maps;
    the outbound HTTP calls and the [print] statements are the nodes of a
    small interaction tree, run against an arbitrary network. *)

From Stdlib Require Import ZArith String Ascii SpecFloat Lia.
From stdpp Require Import base option gmap strings list fin_maps.

#[local] Set Warnings "-register-all".
#[local] Open Scope string_scope.
#[local] Open Scope Z_scope.

(** ** Python values *)

Module Py.

(** The values that [json.loads] produces and that the handlers return.
    A [str] is held as the bytes of its UTF-8 encoding; a [float] is an
    IEEE-754 value. *)
Inductive pyvalue : Type :=
| PyNone
| PyBool (b : bool)
| PyInt (z : Z)
| PyFloat (f : spec_float)
| PyStr (s : string)
| PyList (l : list pyvalue)
| PyDict (d : gmap string pyvalue).

(** The exceptions that can travel through the code of [main.py]. *)
Inductive exn : Type :=
| RequestError (why : string)          (* httpx.RequestError: no response *)
| HTTPStatusError (status : Z) (body : string)
| JSONDecodeError
| AttributeError
| KeyError
| IndexError
| TypeError
| HTTPException (status_code : Z) (detail : string).

(** [bool(v)] *)
Definition truthy (v : pyvalue) : bool :=
  match v with
  | PyNone => false
  | PyBool b => b
  | PyInt z => negb (z =? 0)
  | PyFloat (S754_zero _) => false
  | PyFloat _ => true
  | PyStr s => negb (String.eqb s "")
  | PyList l => match l with [] => false | _ => true end
  | PyDict d => negb (bool_decide (d = ∅))
  end.

(** [v == n] for an [int] literal [n]: numbers compare by value across
    [bool], [int] and [float]; every other type differs from an [int]. *)
Definition float_eq_int (f : spec_float) (n : Z) : bool :=
  match f with
  | S754_zero _ => n =? 0
  | S754_finite s m e =>
      let sm := if s then Z.neg m else Z.pos m in
      if 0 <=? e then sm * 2 ^ e =? n else sm =? n * 2 ^ (- e)
  | S754_infinity _ | S754_nan => false
  end.

Definition py_eq_int (v : pyvalue) (n : Z) : bool :=
  match v with
  | PyBool b => (if b then 1 else 0) =? n
  | PyInt z => z =? n
  | PyFloat f => float_eq_int f n
  | _ => false
  end.

(** [v.get(key, dflt)]: only a [dict] has the method. *)
Definition get (v : pyvalue) (key : string) (dflt : pyvalue) : exn + pyvalue :=
  match v with
  | PyDict d => inr (default dflt (d !! key))
  | _ => inl AttributeError
  end.

(** [v[key]] for a [str] key. *)
Definition getitem (v : pyvalue) (key : string) : exn + pyvalue :=
  match v with
  | PyDict d => match d !! key with Some x => inr x | None => inl KeyError end
  | _ => inl TypeError
  end.

(** The first character of a [str], as the bytes of its first code point. *)
Definition utf8_width (c : ascii) : nat :=
  let n := N_of_ascii c in
  if (n <? 192)%N then 1%nat
  else if (n <? 224)%N then 2%nat
  else if (n <? 240)%N then 3%nat
  else 4%nat.

Definition first_char (s : string) : string :=
  match s with
  | EmptyString => EmptyString
  | String c _ => substring 0 (utf8_width c) s
  end.

(** [v[0]]: the decoded JSON has only [str] keys, so a [dict] has no key
    [0]. *)
Definition getitem0 (v : pyvalue) : exn + pyvalue :=
  match v with
  | PyList l => match l with x :: _ => inr x | [] => inl IndexError end
  | PyStr s => if String.eqb s "" then inl IndexError else inr (PyStr (first_char s))
  | PyDict _ => inl KeyError
  | _ => inl TypeError
  end.

(** The truth value of an environment variable read with
    [os.environ.get]: unset and empty are both false. *)
Definition env_truthy (v : option string) : bool :=
  match v with
  | None => false
  | Some s => negb (String.eqb s "")
  end.

(** [f"{v}"] for an environment variable. *)
Definition env_format (v : option string) : string :=
  match v with
  | None => "None"
  | Some s => s
  end.

End Py.
Export Py.

(** ** [urllib.parse.quote_plus] *)

Module Urllib.

(** The bytes [quote] never escapes: letters, digits and [_.-~]. *)
Definition always_safe (c : ascii) : bool :=
  let n := N_of_ascii c in
  ((65 <=? n) && (n <=? 90) || (97 <=? n) && (n <=? 122)
   || (48 <=? n) && (n <=? 57))%N
  || Ascii.eqb c "_" || Ascii.eqb c "." || Ascii.eqb c "-" || Ascii.eqb c "~".

Definition hex_digit (n : N) : ascii :=
  match String.get (N.to_nat n) "0123456789ABCDEF" with
  | Some c => c
  | None => "0"%char
  end.

Fixpoint mem_char (c : ascii) (s : string) : bool :=
  match s with
  | EmptyString => false
  | String c' s' => Ascii.eqb c c' || mem_char c s'
  end.

(** One byte of [quote_from_bytes]: kept when safe, else [%XX]. *)
Definition quoter (safe : string) (c : ascii) : string :=
  if always_safe c || mem_char c safe then String c EmptyString
  else let n := N_of_ascii c in
       String "%" (String (hex_digit (n / 16)) (String (hex_digit (n mod 16)) EmptyString)).

Fixpoint quote (s : string) (safe : string) : string :=
  match s with
  | EmptyString => EmptyString
  | String c s' => quoter safe c +:+ quote s' safe
  end.

(** [str.replace(' ', '+')] *)
Fixpoint replace_space (s : string) : string :=
  match s with
  | EmptyString => EmptyString
  | String c s' => String (if Ascii.eqb c " " then "+"%char else c) (replace_space s')
  end.

(** [quote_plus(string)] with its default [safe='']: without a space the
    string is quoted as it is, otherwise the space is kept by [quote] and
    then replaced by a plus sign. *)
Definition quote_plus (s : string) : string :=
  if negb (mem_char " " s) then quote s ""
  else replace_space (quote s " ").

End Urllib.

(** ** Outbound calls and console output as an interaction tree *)

Module Http.

Inductive method : Type := GET | POST.

(** What a handler hands to [httpx]: [client.get(url, params=...)] or
    [client.post(url, headers=..., json=...)]. *)
Record request : Type := {
  meth : method;
  url : string;
  headers : gmap string string;
  params : gmap string pyvalue;
  json : option pyvalue
}.

(** What [httpx] hands back: [json_body] is the result of
    [response.json()], [None] when the body does not decode. *)
Record response : Type := {
  status_code : Z;
  text : string;
  json_body : option pyvalue
}.

(** The call raises [httpx.RequestError] (DNS failure, timeout, refused
    connection) or yields a response. *)
Inductive outcome : Type :=
| NoResponse (why : string)
| Responded (r : response).

End Http.
Export Http.

(** The [print] statements, each with the values it formats. *)
Inductive log_line : Type :=
| LogKeyNotSet
| LogRequestError (e : exn)
| LogErrorResponse (status : Z)
| LogResponseBody (body : string)
| LogUnexpected (e : exn)
| LogFailed (cmd : string) (body : string)
| LogError (cmd : string) (errmsg : pyvalue).

Inductive io (A : Type) : Type :=
| Ret (a : A)
| Raise (e : exn)
| Send (rq : request) (k : outcome -> io A)
| Print (m : log_line) (k : io A).

Arguments Ret {A} a.
Arguments Raise {A} e.
Arguments Send {A} rq k.
Arguments Print {A} m k.

Fixpoint io_bind {A B : Type} (f : A -> io B) (m : io A) : io B :=
  match m with
  | Ret a => f a
  | Raise e => Raise e
  | Send rq k => Send rq (fun o => io_bind f (k o))
  | Print l k => Print l (io_bind f k)
  end.

#[export] Instance io_mret : MRet io := @Ret.
#[export] Instance io_mbind : MBind io := @io_bind.

(** [try: body except ...: handler] *)
Fixpoint try_except {A : Type} (body : io A) (handler : exn -> io A) : io A :=
  match body with
  | Ret a => Ret a
  | Raise e => handler e
  | Send rq k => Send rq (fun o => try_except (k o) handler)
  | Print l k => Print l (try_except k handler)
  end.

Definition of_sum {A : Type} (r : exn + A) : io A :=
  match r with
  | inl e => Raise e
  | inr a => Ret a
  end.

Definition print (l : log_line) : io unit := Print l (Ret tt).

(** [await client.get(url, params=params)] *)
Definition client_get (u : string) (ps : gmap string pyvalue) : io response :=
  Send {| meth := GET; url := u; headers := ∅; params := ps; json := None |}
       (fun o => match o with
                 | NoResponse why => Raise (RequestError why)
                 | Responded r => Ret r
                 end).

(** [await client.post(url, headers=headers, json=payload)] *)
Definition client_post (u : string) (hs : gmap string string) (payload : pyvalue)
  : io response :=
  Send {| meth := POST; url := u; headers := hs; params := ∅; json := Some payload |}
       (fun o => match o with
                 | NoResponse why => Raise (RequestError why)
                 | Responded r => Ret r
                 end).

(** [response.raise_for_status()]: [httpx] raises on every status outside
    200..299. *)
Definition is_success (r : response) : bool :=
  (200 <=? status_code r) && (status_code r <=? 299).

Definition raise_for_status (r : response) : io unit :=
  if is_success r then Ret tt
  else Raise (HTTPStatusError (status_code r) (text r)).

(** [response.json()] *)
Definition response_json (r : response) : io pyvalue :=
  match json_body r with
  | Some v => Ret v
  | None => Raise JSONDecodeError
  end.

(** *** Running a handler against a network *)

Inductive event : Type :=
| Sent (rq : request)
| Printed (m : log_line).

Fixpoint run {A : Type} (net : request -> outcome) (m : io A)
  : list event * (exn + A) :=
  match m with
  | Ret a => ([], inr a)
  | Raise e => ([], inl e)
  | Send rq k => let '(t, r) := run net (k (net rq)) in (Sent rq :: t, r)
  | Print l k => let '(t, r) := run net k in (Printed l :: t, r)
  end.

Definition result {A : Type} (net : request -> outcome) (m : io A) : exn + A :=
  (run net m).2.

Definition calls {A : Type} (net : request -> outcome) (m : io A) : list request :=
  omap (fun ev => match ev with Sent rq => Some rq | Printed _ => None end)
       (run net m).1.

(** ** Configuration read at start-up *)

Record config : Type := {
  YOUTUBE_API_KEY : option string;
  SMARTSCREEN_SERVICE_TOKEN : option string
}.

Definition YOUTUBE_API_URL : string := "https://www.googleapis.com/youtube/v3/search".
Definition SMARTSCREEN_API_URL : string := "https://smartscreen.tv/api".

Definition env_value (v : option string) : pyvalue :=
  match v with
  | None => PyNone
  | Some s => PyStr s
  end.

(** ** Video lookup adapter *)

Definition search_youtube_video (cfg : config) (query : string) : io pyvalue :=
  if negb (env_truthy (YOUTUBE_API_KEY cfg)) then
    _ ← print LogKeyNotSet;
    mret PyNone
  else
    let encoded_query := Urllib.quote_plus query in
    let params : gmap string pyvalue :=
      {[ "part" := PyStr "snippet";
         "q" := PyStr encoded_query;
         "key" := env_value (YOUTUBE_API_KEY cfg);
         "type" := PyStr "video";
         "maxResults" := PyInt 1;
         "order" := PyStr "relevance" ]} in
    try_except
      (response ← client_get YOUTUBE_API_URL params;
       _ ← raise_for_status response;
       data ← response_json response;
       items ← of_sum (get data "items" PyNone);
       if truthy items then
         items ← of_sum (getitem data "items");
         first ← of_sum (getitem0 items);
         id ← of_sum (get first "id" (PyDict ∅));
         video_id ← of_sum (get id "videoId" PyNone);
         mret video_id
       else
         mret PyNone)
      (fun exc =>
         match exc with
         | RequestError _ =>
             _ ← print (LogRequestError exc);
             mret PyNone
         | HTTPStatusError status body =>
             _ ← print (LogErrorResponse status);
             _ ← print (LogResponseBody body);
             mret PyNone
         | _ =>
             _ ← print (LogUnexpected exc);
             mret PyNone
         end).

Section VideoLink.

(** [str(v)] of a value that is not a [str], as the interpreter renders
    it inside an f-string. *)
Variable py_str : pyvalue -> string.

Definition format (v : pyvalue) : string :=
  match v with
  | PyStr s => s
  | _ => py_str v
  end.

Definition get_youtube_video_link (cfg : config) (query : string) : io pyvalue :=
  if negb (env_truthy (YOUTUBE_API_KEY cfg)) then
    Raise (HTTPException 500 "API key configuration error. Please check server logs.")
  else
    video_id ← search_youtube_video cfg query;
    if truthy video_id then
      let video_url := "https://www.youtube.com/watch?v=" +:+ format video_id in
      mret (PyDict {[ "video_url" := PyStr video_url ]})
    else
      Raise (HTTPException 404
               ("No relevant YouTube video found for query: '" +:+ query +:+ "'")).

End VideoLink.

Definition test_endpoint : io pyvalue :=
  mret (PyDict {[ "message" := PyStr "My name is MCP Vincent, and I am here to help you." ]}).

(** ** Request models *)

Module DropRequest.
Record t : Type := { display : string; item : string; x : Z; y : Z }.
End DropRequest.

Module NotifyRequest.
Record t : Type := { display : string; message : string; priority : string }.
End NotifyRequest.

Module ToastRequest.
Record t : Type := {
    display : string; message : string; heading : string; icon : string;
    transition : string; duration : string }.
End ToastRequest.

Module MarqueeRequest.
Record t : Type := {
    display : string; message : string; duration : string; color : string;
    size : string; bgcolor : string }.
End MarqueeRequest.

Module TextRequest.
Record t : Type := {
    display : string; message : string; duration : string; color : string;
    size : string; bgcolor : string; align : string; frame : string;
    animate : string; aniduration : string }.
End TextRequest.

Module AppRequest.
Record t : Type := {
    display : string; url : string; duration : string; frame : string }.
End AppRequest.

Module TouchRequest.
Record t : Type := { display : string; option : string; value : string }.
End TouchRequest.

Module StatusRequest.
Record t : Type := { display : string; option : string; value : string }.
End StatusRequest.

Module DjRequest.
Record t : Type := { display : string; option : string; value : string }.
End DjRequest.

(** ** The SmartScreen client *)

Module SmartScreenClient.

Section Client.

Variable cfg : config.

Definition api_url : string := SMARTSCREEN_API_URL.
Definition token : option string := SMARTSCREEN_SERVICE_TOKEN cfg.

Definition envelope (display : string) (command : gmap string pyvalue) : pyvalue :=
  PyDict {[ "to" := PyDict {[ "name" := PyStr display ]};
            "data" := PyDict command ]}.

Definition bearer : gmap string string :=
  {[ "Authorization" := "Bearer " +:+ env_format token ]}.

(** The block that ends each of the nine methods, which differ in it only
    by the command name in the two [print] statements: post, fail on a
    status other than 200, decode, fail on an [ErrCode] other than 0. *)
Definition post_command (cmd : string) (headers : gmap string string)
    (payload : pyvalue) : io bool :=
  response ← client_post api_url headers payload;
  if negb (status_code response =? 200) then
    _ ← print (LogFailed cmd (text response));
    mret false
  else
    result ← response_json response;
    code ← of_sum (get result "ErrCode" (PyInt (-1)));
    if negb (py_eq_int code 0) then
      errmsg ← of_sum (get result "ErrMsg" (PyStr "Unknown error"));
      _ ← print (LogError cmd errmsg);
      mret false
    else
      mret true.

Definition drop_command (item : string) : gmap string pyvalue :=
  {[ "cmd" := PyStr "drop";
     "type" := PyStr "url";
     "src" := PyList [PyStr item];
     "duration" := PyStr "0";
     "frame" := PyStr "main";
     "animate" := PyStr "fade";
     "aniduration" := PyStr "2";
     "pmode" := PyStr "loop";
     "bgcolor" := PyStr "white" ]}.

Definition drop (item display : string) (x y : Z) : io bool :=
  let command := drop_command item in
  let payload := envelope display command in
  let headers : gmap string string :=
    {[ "Content-Type" := "application/json";
       "Authorization" := "Bearer " +:+ env_format token ]} in
  post_command "drop" headers payload.

Definition notify_command (message : string) : gmap string pyvalue :=
  {[ "cmd" := PyStr "notify";
     "msg" := PyStr message;
     "duration" := PyStr "30";
     "color" := PyStr "blue";
     "size" := PyStr "3" ]}.

Definition notify (message display priority : string) : io bool :=
  let command := notify_command message in
  let payload := envelope display command in
  post_command "notify" bearer payload.

Definition toast_command (message heading icon transition duration : string)
  : gmap string pyvalue :=
  {[ "cmd" := PyStr "toast";
     "msg" := PyStr message;
     "heading" := PyStr heading;
     "icon" := PyStr icon;
     "transition" := PyStr transition;
     "duration" := PyStr duration ]}.

Definition toast (message display heading icon transition duration : string)
  : io bool :=
  let command := toast_command message heading icon transition duration in
  let payload := envelope display command in
  post_command "toast" bearer payload.

Definition marquee_command (message duration color size bgcolor : string)
  : gmap string pyvalue :=
  {[ "cmd" := PyStr "marquee";
     "msg" := PyStr message;
     "duration" := PyStr duration;
     "color" := PyStr color;
     "size" := PyStr size;
     "bgcolor" := PyStr bgcolor ]}.

Definition marquee (message display duration color size bgcolor : string)
  : io bool :=
  let command := marquee_command message duration color size bgcolor in
  let payload := envelope display command in
  post_command "marquee" bearer payload.

Definition text_command
    (message duration color size bgcolor align frame animate aniduration : string)
  : gmap string pyvalue :=
  {[ "cmd" := PyStr "text";
     "msg" := PyStr message;
     "duration" := PyStr duration;
     "color" := PyStr color;
     "size" := PyStr size;
     "bgcolor" := PyStr bgcolor;
     "align" := PyStr align;
     "frame" := PyStr frame;
     "animate" := PyStr animate;
     "aniduration" := PyStr aniduration ]}.

Definition text
    (message display duration color size bgcolor align frame animate
       aniduration : string) : io bool :=
  let command :=
    text_command message duration color size bgcolor align frame animate
      aniduration in
  let payload := envelope display command in
  post_command "text" bearer payload.

Definition app_command (url duration frame : string) : gmap string pyvalue :=
  {[ "cmd" := PyStr "app";
     "url" := PyStr url;
     "duration" := PyStr duration;
     "frame" := PyStr frame ]}.

Definition app (url display duration frame : string) : io bool :=
  let command := app_command url duration frame in
  let payload := envelope display command in
  post_command "app" bearer payload.

Definition touch_command (option value : string) : gmap string pyvalue :=
  {[ "cmd" := PyStr "touch"; "option" := PyStr option; "value" := PyStr value ]}.

Definition touch (option display value : string) : io bool :=
  let command := touch_command option value in
  let payload := envelope display command in
  post_command "touch" bearer payload.

Definition status_command (option value : string) : gmap string pyvalue :=
  {[ "cmd" := PyStr "status"; "option" := PyStr option; "value" := PyStr value ]}.

Definition status (option display value : string) : io bool :=
  let command := status_command option value in
  let payload := envelope display command in
  post_command "status" bearer payload.

Definition dj_command (option value : string) : gmap string pyvalue :=
  {[ "cmd" := PyStr "dj"; "option" := PyStr option; "value" := PyStr value ]}.

Definition dj (option display value : string) : io bool :=
  let command := dj_command option value in
  let payload := envelope display command in
  post_command "dj" bearer payload.

End Client.

End SmartScreenClient.

(** ** The POST handlers *)

Section Handlers.

Variable cfg : config.

Definition drop_item (request : DropRequest.t) : io pyvalue :=
  let 'DropRequest.Build_t display item x y := request in
  success ← SmartScreenClient.drop cfg item display x y;
  if negb success then
    Raise (HTTPException 500 "Failed to drop item")
  else
    mret (PyDict {[ "message" := PyStr "Item dropped successfully";
                    "item" := PyStr item;
                    "x" := PyInt x;
                    "y" := PyInt y ]}).

Definition notify_user (request : NotifyRequest.t) : io pyvalue :=
  let 'NotifyRequest.Build_t display message priority := request in
  success ← SmartScreenClient.notify cfg message display priority;
  if negb success then
    Raise (HTTPException 500 "Failed to send notification")
  else
    mret (PyDict {[ "message" := PyStr "Notification sent successfully";
                    "notification" := PyStr message ]}).

Definition toast_message (request : ToastRequest.t) : io pyvalue :=
  let 'ToastRequest.Build_t display message heading icon transition duration :=
    request in
  success ←
    SmartScreenClient.toast cfg message display heading icon transition duration;
  if negb success then
    Raise (HTTPException 500 "Failed to show toast message")
  else
    mret (PyDict {[ "message" := PyStr "Toast displayed successfully";
                    "toast" := PyStr message ]}).

Definition marquee_text (request : MarqueeRequest.t) : io pyvalue :=
  let 'MarqueeRequest.Build_t display message duration color size bgcolor :=
    request in
  success ←
    SmartScreenClient.marquee cfg message display duration color size bgcolor;
  if negb success then
    Raise (HTTPException 500 "Failed to show marquee text")
  else
    mret (PyDict {[ "message" := PyStr "Marquee displayed successfully";
                    "marquee" := PyStr message ]}).

Definition display_text (request : TextRequest.t) : io pyvalue :=
  let 'TextRequest.Build_t display message duration color size bgcolor align
         frame animate aniduration := request in
  success ←
    SmartScreenClient.text cfg message display duration color size bgcolor
      align frame animate aniduration;
  if negb success then
    Raise (HTTPException 500 "Failed to show text")
  else
    mret (PyDict {[ "message" := PyStr "Text displayed successfully";
                    "text" := PyStr message ]}).

Definition launch_app (request : AppRequest.t) : io pyvalue :=
  let 'AppRequest.Build_t display url duration frame := request in
  success ← SmartScreenClient.app cfg url display duration frame;
  if negb success then
    Raise (HTTPException 500 "Failed to launch app")
  else
    mret (PyDict {[ "message" := PyStr "App launched successfully";
                    "url" := PyStr url ]}).

Definition touch_command (request : TouchRequest.t) : io pyvalue :=
  let 'TouchRequest.Build_t display option value := request in
  success ← SmartScreenClient.touch cfg option display value;
  if negb success then
    Raise (HTTPException 500 "Failed to execute touch command")
  else
    mret (PyDict {[ "message" := PyStr "Touch command executed successfully";
                    "option" := PyStr option;
                    "value" := PyStr value ]}).

Definition status_command (request : StatusRequest.t) : io pyvalue :=
  let 'StatusRequest.Build_t display option value := request in
  success ← SmartScreenClient.status cfg option display value;
  if negb success then
    Raise (HTTPException 500 "Failed to execute status command")
  else
    mret (PyDict {[ "message" := PyStr "Status command executed successfully";
                    "option" := PyStr option;
                    "value" := PyStr value ]}).

Definition dj_command (request : DjRequest.t) : io pyvalue :=
  let 'DjRequest.Build_t display option value := request in
  success ← SmartScreenClient.dj cfg option display value;
  if negb success then
    Raise (HTTPException 500 "Failed to execute DJ command")
  else
    mret (PyDict {[ "message" := PyStr "DJ command executed successfully";
                    "option" := PyStr option;
                    "value" := PyStr value ]}).

End Handlers.

(** ** The nine display operations, taken together *)

Inductive operation : Type :=
| Drop (r : DropRequest.t)
| Notify (r : NotifyRequest.t)
| Toast (r : ToastRequest.t)
| Marquee (r : MarqueeRequest.t)
| Text (r : TextRequest.t)
| App (r : AppRequest.t)
| Touch (r : TouchRequest.t)
| Status (r : StatusRequest.t)
| Dj (r : DjRequest.t).

(** The handler mounted for an operation. *)
Definition handler (cfg : config) (op : operation) : io pyvalue :=
  match op with
  | Drop r => drop_item cfg r
  | Notify r => notify_user cfg r
  | Toast r => toast_message cfg r
  | Marquee r => marquee_text cfg r
  | Text r => display_text cfg r
  | App r => launch_app cfg r
  | Touch r => touch_command cfg r
  | Status r => status_command cfg r
  | Dj r => dj_command cfg r
  end.

(** The client method that the handler of an operation awaits, with the
    arguments the handler passes. *)
Definition translator (cfg : config) (op : operation) : io bool :=
  match op with
  | Drop (DropRequest.Build_t display item x y) =>
      SmartScreenClient.drop cfg item display x y
  | Notify (NotifyRequest.Build_t display message priority) =>
      SmartScreenClient.notify cfg message display priority
  | Toast (ToastRequest.Build_t display message heading icon transition duration) =>
      SmartScreenClient.toast cfg message display heading icon transition duration
  | Marquee (MarqueeRequest.Build_t display message duration color size bgcolor) =>
      SmartScreenClient.marquee cfg message display duration color size bgcolor
  | Text (TextRequest.Build_t display message duration color size bgcolor align
            frame animate aniduration) =>
      SmartScreenClient.text cfg message display duration color size bgcolor
        align frame animate aniduration
  | App (AppRequest.Build_t display url duration frame) =>
      SmartScreenClient.app cfg url display duration frame
  | Touch (TouchRequest.Build_t display option value) =>
      SmartScreenClient.touch cfg option display value
  | Status (StatusRequest.Build_t display option value) =>
      SmartScreenClient.status cfg option display value
  | Dj (DjRequest.Build_t display option value) =>
      SmartScreenClient.dj cfg option display value
  end.

(** The vendor command that the method builds. *)
Definition command (op : operation) : gmap string pyvalue :=
  match op with
  | Drop (DropRequest.Build_t _ item _ _) => SmartScreenClient.drop_command item
  | Notify (NotifyRequest.Build_t _ message _) =>
      SmartScreenClient.notify_command message
  | Toast (ToastRequest.Build_t _ message heading icon transition duration) =>
      SmartScreenClient.toast_command message heading icon transition duration
  | Marquee (MarqueeRequest.Build_t _ message duration color size bgcolor) =>
      SmartScreenClient.marquee_command message duration color size bgcolor
  | Text (TextRequest.Build_t _ message duration color size bgcolor align frame
            animate aniduration) =>
      SmartScreenClient.text_command message duration color size bgcolor align
        frame animate aniduration
  | App (AppRequest.Build_t _ url duration frame) =>
      SmartScreenClient.app_command url duration frame
  | Touch (TouchRequest.Build_t _ option value) =>
      SmartScreenClient.touch_command option value
  | Status (StatusRequest.Build_t _ option value) =>
      SmartScreenClient.status_command option value
  | Dj (DjRequest.Build_t _ option value) =>
      SmartScreenClient.dj_command option value
  end.

Definition display_of (op : operation) : string :=
  match op with
  | Drop r => DropRequest.display r
  | Notify r => NotifyRequest.display r
  | Toast r => ToastRequest.display r
  | Marquee r => MarqueeRequest.display r
  | Text r => TextRequest.display r
  | App r => AppRequest.display r
  | Touch r => TouchRequest.display r
  | Status r => StatusRequest.display r
  | Dj r => DjRequest.display r
  end.

(** The inbound request as the mapping of its field names to values. *)
Definition inbound (op : operation) : gmap string pyvalue :=
  match op with
  | Drop (DropRequest.Build_t display item x y) =>
      {[ "display" := PyStr display; "item" := PyStr item;
         "x" := PyInt x; "y" := PyInt y ]}
  | Notify (NotifyRequest.Build_t display message priority) =>
      {[ "display" := PyStr display; "message" := PyStr message;
         "priority" := PyStr priority ]}
  | Toast (ToastRequest.Build_t display message heading icon transition duration) =>
      {[ "display" := PyStr display; "message" := PyStr message;
         "heading" := PyStr heading; "icon" := PyStr icon;
         "transition" := PyStr transition; "duration" := PyStr duration ]}
  | Marquee (MarqueeRequest.Build_t display message duration color size bgcolor) =>
      {[ "display" := PyStr display; "message" := PyStr message;
         "duration" := PyStr duration; "color" := PyStr color;
         "size" := PyStr size; "bgcolor" := PyStr bgcolor ]}
  | Text (TextRequest.Build_t display message duration color size bgcolor align
            frame animate aniduration) =>
      {[ "display" := PyStr display; "message" := PyStr message;
         "duration" := PyStr duration; "color" := PyStr color;
         "size" := PyStr size; "bgcolor" := PyStr bgcolor;
         "align" := PyStr align; "frame" := PyStr frame;
         "animate" := PyStr animate; "aniduration" := PyStr aniduration ]}
  | App (AppRequest.Build_t display url duration frame) =>
      {[ "display" := PyStr display; "url" := PyStr url;
         "duration" := PyStr duration; "frame" := PyStr frame ]}
  | Touch (TouchRequest.Build_t display option value)
  | Status (StatusRequest.Build_t display option value)
  | Dj (DjRequest.Build_t display option value) =>
      {[ "display" := PyStr display; "option" := PyStr option;
         "value" := PyStr value ]}
  end.

(** The name under which a method logs, and the headers it sends. *)
Definition cmd_name (op : operation) : string :=
  match op with
  | Drop _ => "drop"
  | Notify _ => "notify"
  | Toast _ => "toast"
  | Marquee _ => "marquee"
  | Text _ => "text"
  | App _ => "app"
  | Touch _ => "touch"
  | Status _ => "status"
  | Dj _ => "dj"
  end.

Definition headers_of (cfg : config) (op : operation) : gmap string string :=
  match op with
  | Drop _ => <["Content-Type" := "application/json"]> (SmartScreenClient.bearer cfg)
  | _ => SmartScreenClient.bearer cfg
  end.

(** The one request an operation hands to the HTTP client. *)
Definition vendor_request (cfg : config) (op : operation) : request :=
  {| meth := POST;
     url := SMARTSCREEN_API_URL;
     headers := headers_of cfg op;
     params := ∅;
     json := Some (SmartScreenClient.envelope (display_of op) (command op)) |}.

(** The outcome of a client method, read off the answer of the network. *)
Definition verdict (out : outcome) : exn + bool :=
  match out with
  | NoResponse why => inl (RequestError why)
  | Responded r =>
      if status_code r =? 200 then
        match json_body r with
        | None => inl JSONDecodeError
        | Some (PyDict d) =>
            inr (py_eq_int (default (PyInt (-1)) (d !! "ErrCode")) 0)
        | Some _ => inl AttributeError
        end
      else inr false
  end.

(** ** What the framework sends for a handler's outcome

    FastAPI answers 200 with the returned value as JSON, renders an
    [HTTPException] as its status with the body [{"detail": ...}], and
    turns any other exception into a plain 500. *)

Inductive reply_body : Type :=
| JsonBody (v : pyvalue)
| PlainBody (s : string).

Definition reply (r : exn + pyvalue) : Z * reply_body :=
  match r with
  | inr v => (200, JsonBody v)
  | inl (HTTPException status_code detail) =>
      (status_code, JsonBody (PyDict {[ "detail" := PyStr detail ]}))
  | inl _ => (500, PlainBody "Internal Server Error")
  end.

(** ** The vendor command table of the interface description

    One row per operation: each vendor key with where its value comes
    from, a field of the inbound request or a fixed string. *)

Inductive source : Type :=
| Fixed (s : string)             (* a literal of the table *)
| Field (name : string)          (* the caller's field, unchanged *)
| ListOf (name : string).        (* a one-element list holding the field *)

Definition vendor_table (op : operation) : list (string * source) :=
  match op with
  | Drop _ =>
      [("cmd", Fixed "drop"); ("type", Fixed "url"); ("src", ListOf "item");
       ("duration", Fixed "0"); ("frame", Fixed "main"); ("animate", Fixed "fade");
       ("aniduration", Fixed "2"); ("pmode", Fixed "loop");
       ("bgcolor", Fixed "white")]
  | Notify _ =>
      [("cmd", Fixed "notify"); ("msg", Field "message"); ("duration", Fixed "30");
       ("color", Fixed "blue"); ("size", Fixed "3")]
  | Toast _ =>
      [("cmd", Fixed "toast"); ("msg", Field "message"); ("heading", Field "heading");
       ("icon", Field "icon"); ("transition", Field "transition");
       ("duration", Field "duration")]
  | Marquee _ =>
      [("cmd", Fixed "marquee"); ("msg", Field "message");
       ("duration", Field "duration"); ("color", Field "color");
       ("size", Field "size"); ("bgcolor", Field "bgcolor")]
  | Text _ =>
      [("cmd", Fixed "text"); ("msg", Field "message");
       ("duration", Field "duration"); ("color", Field "color");
       ("size", Field "size"); ("bgcolor", Field "bgcolor");
       ("align", Field "align"); ("frame", Field "frame");
       ("animate", Field "animate"); ("aniduration", Field "aniduration")]
  | App _ =>
      [("cmd", Fixed "app"); ("url", Field "url"); ("duration", Field "duration");
       ("frame", Field "frame")]
  | Touch _ =>
      [("cmd", Fixed "touch"); ("option", Field "option"); ("value", Field "value")]
  | Status _ =>
      [("cmd", Fixed "status"); ("option", Field "option"); ("value", Field "value")]
  | Dj _ =>
      [("cmd", Fixed "dj"); ("option", Field "option"); ("value", Field "value")]
  end.

(** The value a table entry stands for, given the inbound request. *)
Definition denote (op : operation) (src : source) : option pyvalue :=
  match src with
  | Fixed s => Some (PyStr s)
  | Field name => inbound op !! name
  | ListOf name => v ← inbound op !! name; Some (PyList [v])
  end.

(** The one request the video lookup hands to the HTTP client. *)
Definition youtube_request (cfg : config) (query : string) : request :=
  {| meth := GET;
     url := YOUTUBE_API_URL;
     headers := ∅;
     params :=
       {[ "part" := PyStr "snippet";
          "q" := PyStr (Urllib.quote_plus query);
          "key" := env_value (YOUTUBE_API_KEY cfg);
          "type" := PyStr "video";
          "maxResults" := PyInt 1;
          "order" := PyStr "relevance" ]};
     json := None |}.

(** ** Sample inputs *)

Module Sample.

Definition cfg : config :=
  {| YOUTUBE_API_KEY := Some "yt-key"; SMARTSCREEN_SERVICE_TOKEN := Some "ss-token" |}.

Definition no_key : config :=
  {| YOUTUBE_API_KEY := None; SMARTSCREEN_SERVICE_TOKEN := Some "ss-token" |}.

Definition hello : operation :=
  Notify (NotifyRequest.Build_t "lobby" "Hello" "high").

Definition clip : DropRequest.t :=
  DropRequest.Build_t "lobby" "https://example.com/a.mp4" 3 4.

(** A network that gives every request the same answer. *)
Definition answers (out : outcome) : request -> outcome := fun _ => out.

(** A double quote, and a string between double quotes. *)
Definition dquote : string := String (ascii_of_nat 34) EmptyString.
Definition quoted (s : string) : string := dquote +:+ s +:+ dquote.

(** 200 with [{"ErrCode": 0}] *)
Definition ok : response :=
  {| status_code := 200; text := "{" +:+ quoted "ErrCode" +:+ ":0}";
     json_body := Some (PyDict {[ "ErrCode" := PyInt 0 ]}) |}.

(** 200 with [{"ErrCode": 1, "ErrMsg": "x"}] *)
Definition vendor_error : response :=
  {| status_code := 200; text := "{" +:+ quoted "ErrCode" +:+ ":1," +:+ quoted "ErrMsg" +:+ ":"
             +:+ quoted "x" +:+ "}";
     json_body := Some (PyDict {[ "ErrCode" := PyInt 1; "ErrMsg" := PyStr "x" ]}) |}.

(** 500 with a body that is not JSON *)
Definition server_error : response :=
  {| status_code := 500; text := "Internal Server Error"; json_body := None |}.

(** 200 with one search result whose [id.videoId] is [abc123] *)
Definition one_item : response :=
  {| status_code := 200; text := "one item";
     json_body :=
       Some (PyDict {[ "kind" := PyStr "youtube#searchListResponse";
                       "items" :=
                         PyList [PyDict {[ "id" :=
                                   PyDict {[ "kind" := PyStr "youtube#video";
                                             "videoId" := PyStr "abc123" ]} ]}] ]}) |}.

(** 200 with an empty [items] list *)
Definition no_items : response :=
  {| status_code := 200; text := "no items";
     json_body := Some (PyDict {[ "items" := PyList [] ]}) |}.

(** 200 with one search result that has no [videoId], followed by a video *)
Definition channel_first : response :=
  {| status_code := 200; text := "channel first";
     json_body :=
       Some (PyDict {[ "items" :=
               PyList [PyDict {[ "id" := PyDict {[ "channelId" := PyStr "UC1" ]} ]};
                       PyDict {[ "id" := PyDict {[ "videoId" := PyStr "xyz" ]} ]}] ]}) |}.

(** 200 with a body that is not JSON *)
Definition garbled : response :=
  {| status_code := 200; text := "<html>"; json_body := None |}.

(** 200 with [{"ErrCode": 0, "Data": "v1.2"}] *)
Definition ok_with_data : response :=
  {| status_code := 200; text := "with data";
     json_body := Some (PyDict {[ "ErrCode" := PyInt 0; "Data" := PyStr "v1.2" ]}) |}.

(** A rendering for the values that are no strings; no lookup below
    reaches it. *)
Definition py_str (v : pyvalue) : string := "<value>".

End Sample.

(** ** Notions used to state the properties *)

(** Every byte of the string is one that [quote] keeps. *)
Fixpoint all_safe (s : string) : bool :=
  match s with
  | EmptyString => true
  | String c s' => Urllib.always_safe c && all_safe s'
  end.

(** What [quote_plus] writes for one byte. *)
Definition plus_byte (c : ascii) : string :=
  if Urllib.always_safe c then String c EmptyString
  else if Ascii.eqb c " " then "+"
  else let n := N_of_ascii c in
       String "%" (String (Urllib.hex_digit (n / 16))
                     (String (Urllib.hex_digit (n mod 16)) EmptyString)).

Fixpoint plus_bytes (s : string) : string :=
  match s with
  | EmptyString => EmptyString
  | String c s' => plus_byte c +:+ plus_bytes s'
  end.

(** The value of a hexadecimal digit. *)
Definition hex_value (c : ascii) : N :=
  let n := N_of_ascii c in
  (if n <? 58 then n - 48 else n - 55)%N.

(** Reading a quoted string back: a plus sign is a space, [%XX] is the
    byte with that code. *)
Fixpoint unquote_plus (s : string) : string :=
  match s with
  | EmptyString => EmptyString
  | String c rest =>
      if Ascii.eqb c "%" then
        match rest with
        | String a (String b s') =>
            String (ascii_of_N (16 * hex_value a + hex_value b)) (unquote_plus s')
        | _ => String c (unquote_plus rest)
        end
      else String (if Ascii.eqb c "+" then " "%char else c) (unquote_plus rest)
  end.

(** The events of a run: the requests sent and the lines printed, in
    order. *)
Definition events {A : Type} (net : request -> outcome) (m : io A) : list event :=
  (run net m).1.

(** The fields of an inbound request that no vendor command carries. *)
Definition unused_field (name : string) : bool :=
  String.eqb name "x" || String.eqb name "y" || String.eqb name "priority".

(** * Properties *)

(** ** Running the shared tail of the client methods *)

Lemma translator_post_command (cfg : config) (op : operation) :
  translator cfg op =
  SmartScreenClient.post_command (cmd_name op) (headers_of cfg op)
    (SmartScreenClient.envelope (display_of op) (command op)).
Proof. destruct op as [[]|[]|[]|[]|[]|[]|[]|[]|[]]; reflexivity. Qed.

Lemma run_post_command cmd hs payload (net : request -> outcome) :
  let rq := {| meth := POST; url := SMARTSCREEN_API_URL; headers := hs;
               params := ∅; json := Some payload |} in
  calls net (SmartScreenClient.post_command cmd hs payload) = [rq] /\
  result net (SmartScreenClient.post_command cmd hs payload) = verdict (net rq).
Proof.
  unfold calls, result, SmartScreenClient.post_command, client_post,
    SmartScreenClient.api_url, verdict; cbn.
  destruct (net _) as [why|r]; cbn; [split; reflexivity|].
  destruct (status_code r =? 200); cbn; [|split; reflexivity].
  unfold response_json.
  destruct (json_body r) as [[| | | | | |d]|]; cbn; try (split; reflexivity).
  destruct (py_eq_int _ 0); split; reflexivity.
Qed.

Lemma result_translator cfg op net :
  result net (translator cfg op) = verdict (net (vendor_request cfg op)).
Proof. rewrite translator_post_command. apply run_post_command. Qed.

Lemma calls_translator cfg op net :
  calls net (translator cfg op) = [vendor_request cfg op].
Proof. rewrite translator_post_command. apply run_post_command. Qed.

(** Sequencing: the events of the first part, then those of the rest. *)
Lemma run_bind {A B : Type} (net : request -> outcome) (m : io A) (f : A -> io B) :
  run net (m ≫= f) =
  match (run net m).2 with
  | inl e => ((run net m).1, inl e)
  | inr a => (((run net m).1 ++ (run net (f a)).1)%list, (run net (f a)).2)
  end.
Proof.
  unfold mbind, io_mbind.
  induction m as [a|e|rq k IH|l k IH]; cbn.
  - destruct (run net (f a)); reflexivity.
  - reflexivity.
  - rewrite IH. destruct (run net (k (net rq))) as [t [e|a]]; reflexivity.
  - rewrite IH. destruct (run net k) as [t [e|a]]; reflexivity.
Qed.

(** ** Success and failure of a display operation *)

(** [v == 0] holds for the integer 0 and for what Python counts as equal to
    it, [False] and a floating-point zero, and for nothing else. *)
Lemma py_eq_int_zero (v : pyvalue) :
  py_eq_int v 0 = true <->
  v = PyInt 0 \/ v = PyBool false \/ exists s, v = PyFloat (S754_zero s).
Proof.
  split.
  - destruct v as [|b|z|f|s|l|d]; cbn; try discriminate.
    + destruct b; cbn; [discriminate|]. intros _. right; left; reflexivity.
    + intros H%Z.eqb_eq. subst. left; reflexivity.
    + destruct f as [s|s| |s m e]; cbn; try discriminate.
      * intros _. right; right. exists s. reflexivity.
      * destruct (0 <=? e) eqn:He; intros H%Z.eqb_eq; exfalso.
        -- apply Z.leb_le in He.
           assert (0 < 2 ^ e) by (apply Z.pow_pos_nonneg; lia).
           destruct s; nia.
        -- destruct s; lia.
  - intros [->|[->|[s ->]]]; reflexivity.
Qed.

Lemma default_ErrCode_nonzero : py_eq_int (PyInt (-1)) 0 = false.
Proof. reflexivity. Qed.

(** C1. A display operation returns [True] exactly when the vendor answers
    with status 200 and a JSON object whose [ErrCode] compares equal to 0.
    With status 200 and an object whose [ErrCode] is absent (read as -1) or
    differs from 0 it returns [False]; with any other status it returns
    [False] whatever the body is, even one that does not decode. *)
Theorem display_operation_success_iff
    (cfg : config) (op : operation) (net : request -> outcome) :
  (result net (translator cfg op) = inr true <->
   exists r d v,
     net (vendor_request cfg op) = Responded r /\
     status_code r = 200 /\
     json_body r = Some (PyDict d) /\
     d !! "ErrCode" = Some v /\ py_eq_int v 0 = true)
  /\
  (forall r d,
     net (vendor_request cfg op) = Responded r ->
     status_code r = 200 ->
     json_body r = Some (PyDict d) ->
     (d !! "ErrCode" = None \/
      exists v, d !! "ErrCode" = Some v /\ py_eq_int v 0 = false) ->
     result net (translator cfg op) = inr false)
  /\
  (forall r,
     net (vendor_request cfg op) = Responded r ->
     status_code r <> 200 ->
     result net (translator cfg op) = inr false).
Proof.
  rewrite result_translator. unfold verdict.
  split; [split|split].
  - destruct (net _) as [why|r]; [discriminate|].
    destruct (status_code r =? 200) eqn:Hs; [|discriminate].
    apply Z.eqb_eq in Hs.
    destruct (json_body r) as [[| | | | | |d]|] eqn:Hj; try discriminate.
    destruct (d !! "ErrCode") as [v|] eqn:Hv; cbn; [|discriminate].
    intros [= Hz]. exists r, d, v. repeat split; assumption || reflexivity.
  - intros (r & d & v & -> & Hs & -> & -> & Hz). cbn.
    apply Z.eqb_eq in Hs. rewrite Hs, Hz. reflexivity.
  - intros r d -> Hs%Z.eqb_eq -> [->|(v & -> & Hz)]; rewrite Hs; cbn.
    + reflexivity.
    + rewrite Hz. reflexivity.
  - intros r -> Hs%Z.eqb_neq. rewrite Hs. reflexivity.
Qed.

Lemma display_operation_success_iff_witness :
  result (Sample.answers (Responded Sample.ok))
    (translator Sample.cfg Sample.hello) = inr true /\
  result (Sample.answers (Responded Sample.vendor_error))
    (translator Sample.cfg Sample.hello) = inr false /\
  result (Sample.answers (Responded Sample.server_error))
    (translator Sample.cfg Sample.hello) = inr false.
Proof.
  split; [|split].
  - apply (display_operation_success_iff Sample.cfg Sample.hello
             (Sample.answers (Responded Sample.ok))).
    exists Sample.ok, {[ "ErrCode" := PyInt 0 ]}, (PyInt 0).
    repeat split; reflexivity.
  - apply (proj1 (proj2 (display_operation_success_iff Sample.cfg Sample.hello
             (Sample.answers (Responded Sample.vendor_error))))
             Sample.vendor_error {[ "ErrCode" := PyInt 1; "ErrMsg" := PyStr "x" ]});
      try reflexivity.
    right. exists (PyInt 1). split; reflexivity.
  - apply (proj2 (proj2 (display_operation_success_iff Sample.cfg Sample.hello
             (Sample.answers (Responded Sample.server_error))))
             Sample.server_error); [reflexivity|].
    cbn. lia.
Defined.

(** ** A handler awaits its client method and maps the boolean *)

Lemma handler_shape (cfg : config) (op : operation) :
  exists (detail : string) (body : gmap string pyvalue),
    handler cfg op =
    translator cfg op ≫= (fun success : bool =>
      if negb success then Raise (HTTPException 500 detail)
      else mret (PyDict body)).
Proof.
  destruct op as [[]|[]|[]|[]|[]|[]|[]|[]|[]]; eexists _, _; reflexivity.
Qed.

Lemma calls_handler cfg op net :
  calls net (handler cfg op) = [vendor_request cfg op].
Proof.
  destruct (handler_shape cfg op) as (detail & body & ->).
  pose proof (calls_translator cfg op net) as Hc.
  unfold calls in *. rewrite run_bind.
  destruct (run net (translator cfg op)) as [t [e|[|]]]; cbn in *;
    rewrite ?app_nil_r; exact Hc.
Qed.

Lemma result_handler_raise cfg op net (e : exn) :
  result net (translator cfg op) = inl e ->
  result net (handler cfg op) = inl e.
Proof.
  destruct (handler_shape cfg op) as (detail & body & ->).
  unfold result. rewrite run_bind. intros ->. reflexivity.
Qed.

(** ** The outbound call cannot complete *)

(** C2, as the code has it. When the vendor call raises a transport error,
    the client method raises it as well, the handler lets it through, and
    the framework answers a plain 500: the handler's own
    [HTTPException(500, "Failed to ...")] is not raised. *)
Theorem transport_error_propagates
    (cfg : config) (op : operation) (net : request -> outcome) (why : string) :
  net (vendor_request cfg op) = NoResponse why ->
  result net (translator cfg op) = inl (RequestError why) /\
  result net (handler cfg op) = inl (RequestError why) /\
  reply (result net (handler cfg op)) = (500, PlainBody "Internal Server Error").
Proof.
  intros Hnet.
  assert (result net (translator cfg op) = inl (RequestError why)) as Ht.
  { rewrite result_translator, Hnet. reflexivity. }
  split; [exact Ht|].
  rewrite (result_handler_raise _ _ _ _ Ht). split; reflexivity.
Qed.

Lemma transport_error_propagates_witness :
  result (Sample.answers (NoResponse "connection refused"))
    (handler Sample.cfg Sample.hello) = inl (RequestError "connection refused").
Proof.
  apply (transport_error_propagates Sample.cfg Sample.hello
           (Sample.answers (NoResponse "connection refused"))
           "connection refused").
  reflexivity.
Defined.

(** C2, as stated, fails: with the connection refused, [drop_item] raises
    no [HTTPException] at all, so the caller does not get the body
    [{"detail": "Failed to drop item"}]. *)
Lemma transport_error_not_operation_failure :
  let out := result (Sample.answers (NoResponse "connection refused"))
               (drop_item Sample.cfg Sample.clip) in
  ~ (exists detail, out = inl (HTTPException 500 detail)) /\
  reply out <> reply (inl (HTTPException 500 "Failed to drop item")).
Proof.
  cbn. split.
  - intros [detail H]. discriminate H.
  - discriminate.
Qed.

(** ** The destination envelope *)

(** C8. Whatever the network answers, an operation makes one outbound
    call: a POST to the vendor URL whose JSON body has the two keys [to]
    and [data], with [to] holding the caller's display under [name] and
    [data] holding the operation's vendor command. *)
Theorem envelope_is_transmitted
    (cfg : config) (op : operation) (net : request -> outcome) :
  exists env : gmap string pyvalue,
    calls net (handler cfg op) =
      [ {| meth := POST; url := SMARTSCREEN_API_URL;
           headers := headers_of cfg op; params := ∅;
           json := Some (PyDict env) |} ] /\
    dom env = {[ "to"; "data" ]} /\
    env !! "to" = Some (PyDict {[ "name" := PyStr (display_of op) ]}) /\
    env !! "data" = Some (PyDict (command op)).
Proof.
  eexists. split; [apply calls_handler|].
  split; [|split].
  - rewrite dom_insert_L, dom_singleton_L. reflexivity.
  - reflexivity.
  - reflexivity.
Qed.

(** ** Fixed fields of [drop] and [notify] *)

(** C3. For every drop request and every configuration and network, the
    command sent has [pmode] loop, [animate] fade, [aniduration] 2,
    [bgcolor] white, [duration] 0 and [frame] main. *)
Theorem drop_fixed_fields
    (cfg : config) (rq : DropRequest.t) (net : request -> outcome) :
  exists cmd : gmap string pyvalue,
    json <$> calls net (drop_item cfg rq) =
      [Some (SmartScreenClient.envelope (DropRequest.display rq) cmd)] /\
    cmd !! "pmode" = Some (PyStr "loop") /\
    cmd !! "animate" = Some (PyStr "fade") /\
    cmd !! "aniduration" = Some (PyStr "2") /\
    cmd !! "bgcolor" = Some (PyStr "white") /\
    cmd !! "duration" = Some (PyStr "0") /\
    cmd !! "frame" = Some (PyStr "main").
Proof.
  exists (command (Drop rq)). split.
  - change (drop_item cfg rq) with (handler cfg (Drop rq)).
    rewrite calls_handler. reflexivity.
  - destruct rq as [display item x y]. repeat split; reflexivity.
Qed.

(** C4. Two notify requests with the same display and message behave the
    same whatever their priorities: same events, same outcome.  The
    command sent is [cmd] notify, [msg] the message, [duration] 30,
    [color] blue, [size] 3, and nothing else. *)
Theorem notify_ignores_priority
    (cfg : config) (r1 r2 : NotifyRequest.t) (net : request -> outcome) :
  NotifyRequest.display r1 = NotifyRequest.display r2 ->
  NotifyRequest.message r1 = NotifyRequest.message r2 ->
  run net (notify_user cfg r1) = run net (notify_user cfg r2) /\
  json <$> calls net (notify_user cfg r1) =
    [Some (SmartScreenClient.envelope (NotifyRequest.display r1)
             {[ "cmd" := PyStr "notify";
                "msg" := PyStr (NotifyRequest.message r1);
                "duration" := PyStr "30";
                "color" := PyStr "blue";
                "size" := PyStr "3" ]})].
Proof.
  destruct r1 as [d1 m1 p1], r2 as [d2 m2 p2].
  intros Hd Hm. cbn in Hd, Hm. subst d2 m2. split; [reflexivity|].
  pose proof (calls_handler cfg (Notify (NotifyRequest.Build_t d1 m1 p1)) net) as Hc.
  cbn [handler] in Hc. rewrite Hc. reflexivity.
Qed.

Lemma notify_ignores_priority_witness :
  run (Sample.answers (Responded Sample.ok))
    (notify_user Sample.cfg (NotifyRequest.Build_t "lobby" "Hello" "high")) =
  run (Sample.answers (Responded Sample.ok))
    (notify_user Sample.cfg (NotifyRequest.Build_t "lobby" "Hello" "low")).
Proof.
  apply (notify_ignores_priority Sample.cfg
           (NotifyRequest.Build_t "lobby" "Hello" "high")
           (NotifyRequest.Build_t "lobby" "Hello" "low")
           (Sample.answers (Responded Sample.ok))); reflexivity.
Defined.

(** ** The vendor command of every operation *)

(** C7. The command an operation builds has exactly the keys of its row in
    the table, and under each key the value the row names: the caller's
    field as supplied, or the fixed string.  No key occurs twice in a row. *)
Theorem command_matches_table (op : operation) :
  NoDup (vendor_table op).*1 /\
  dom (command op) = list_to_set (vendor_table op).*1 /\
  (forall key src,
     (key, src) ∈ vendor_table op ->
     exists v, denote op src = Some v /\ command op !! key = Some v) /\
  (forall message, inbound op !! "message" = Some message ->
     command op !! "msg" = Some message).
Proof.
  destruct op as [[]|[]|[]|[]|[]|[]|[]|[]|[]];
    (split; [compute_done|]);
    (split; [compute_done|]);
    (split;
     [intros key src Hin;
      repeat (apply elem_of_cons in Hin as [[= -> ->]|Hin];
              [eexists; split; reflexivity|]);
      apply elem_of_nil in Hin; destruct Hin
     |intros msg Hmsg; vm_compute in Hmsg; try discriminate Hmsg;
      injection Hmsg as <-; reflexivity]).
Qed.

Lemma command_matches_table_witness :
  command Sample.hello !! "msg" = Some (PyStr "Hello").
Proof.
  destruct (command_matches_table Sample.hello) as (_ & _ & Hrow & _).
  destruct (Hrow "msg" (Field "message")) as (v & Hv & Hcmd).
  - cbn. repeat constructor.
  - vm_compute in Hv. injection Hv as <-. exact Hcmd.
Defined.

(** ** Replies of the POST handlers *)

(** Two replies with different [detail] strings are different. *)
Ltac same_detail H :=
  apply (f_equal (fun r : Z * reply_body =>
                    match r.2 with
                    | JsonBody (PyDict d) => d !! "detail"
                    | _ => None
                    end)) in H;
  vm_compute in H; discriminate H.

Ltac handler_cases op :=
  destruct op as [[]|[]|[]|[]|[]|[]|[]|[]|[]];
  cbn [handler translator drop_item notify_user toast_message marquee_text
       display_text launch_app touch_command status_command dj_command] in *.

(** C9. When the client method returns [True] the handler's reply is 200
    with a JSON object that has a [message] key and at least one more key,
    every other value being a field of the request; when it returns
    [False] the reply is 500 with the body [{"detail": "Failed to ..."}],
    and the detail tells the nine operations apart. *)
Theorem post_handler_replies
    (cfg : config) (op : operation) (net : request -> outcome) :
  (result net (translator cfg op) = inr true ->
   exists body : gmap string pyvalue,
     reply (result net (handler cfg op)) = (200, JsonBody (PyDict body)) /\
     is_Some (body !! "message") /\
     (exists key, key <> "message" /\ is_Some (body !! key)) /\
     (forall key v, body !! key = Some v -> key <> "message" ->
                    exists field, inbound op !! field = Some v))
  /\
  (result net (translator cfg op) = inr false ->
   exists verb : string,
     reply (result net (handler cfg op)) =
       (500, JsonBody (PyDict {[ "detail" := PyStr ("Failed to " +:+ verb) ]})) /\
     (forall cfg' op' net',
        result net' (translator cfg' op') = inr false ->
        reply (result net' (handler cfg' op')) =
        reply (result net (handler cfg op)) ->
        cmd_name op' = cmd_name op)).
Proof.
  split; intros Hb.
  - handler_cases op; unfold result in *; rewrite run_bind, Hb; cbn;
      eexists; (split; [reflexivity|]); (split; [eexists; reflexivity|]).
    all: split;
      [ first [ (exists "item"; split; [discriminate|eexists; reflexivity])
              | (exists "notification"; split; [discriminate|eexists; reflexivity])
              | (exists "toast"; split; [discriminate|eexists; reflexivity])
              | (exists "marquee"; split; [discriminate|eexists; reflexivity])
              | (exists "text"; split; [discriminate|eexists; reflexivity])
              | (exists "url"; split; [discriminate|eexists; reflexivity])
              | (exists "option"; split; [discriminate|eexists; reflexivity]) ]
      | intros key v Hk Hne;
        repeat (apply lookup_insert_Some in Hk as [[<- <-]|[_ Hk]];
                [first [ congruence
                       | (exists "item"; reflexivity)
                       | (exists "x"; reflexivity)
                       | (exists "message"; reflexivity)
                       | (exists "url"; reflexivity)
                       | (exists "option"; reflexivity) ]|]);
        apply lookup_singleton_Some in Hk as [<- <-];
        first [ (exists "y"; reflexivity)
              | (exists "message"; reflexivity)
              | (exists "url"; reflexivity)
              | (exists "value"; reflexivity) ] ].
  - handler_cases op; unfold result in *; rewrite run_bind, Hb; cbn;
      eexists; (split; [reflexivity|]);
      intros cfg' op' net' Hb' Heq;
      handler_cases op'; rewrite run_bind, Hb' in Heq; cbn in Heq;
      first [ reflexivity | exfalso; clear -Heq; same_detail Heq ].
Qed.

Lemma post_handler_replies_witness :
  reply (result (Sample.answers (Responded Sample.ok))
           (handler Sample.cfg Sample.hello)) =
    (200, JsonBody (PyDict {[ "message" := PyStr "Notification sent successfully";
                              "notification" := PyStr "Hello" ]})) /\
  reply (result (Sample.answers (Responded Sample.vendor_error))
           (handler Sample.cfg Sample.hello)) =
    (500, JsonBody (PyDict {[ "detail" := PyStr "Failed to send notification" ]})).
Proof.
  split.
  - destruct (proj1 (post_handler_replies Sample.cfg Sample.hello
                       (Sample.answers (Responded Sample.ok))))
      as (body & Hbody & _); [reflexivity|].
    rewrite Hbody. vm_compute in Hbody. injection Hbody as <-. reflexivity.
  - destruct (proj2 (post_handler_replies Sample.cfg Sample.hello
                       (Sample.answers (Responded Sample.vendor_error))))
      as (verb & Hverb & _); [reflexivity|].
    rewrite Hverb. vm_compute in Hverb. injection Hverb as <-. reflexivity.
Defined.

(** ** The video lookup adapter *)

Section Search.

Variables (cfg : config) (query : string) (net : request -> outcome).
Hypothesis Hkey : env_truthy (YOUTUBE_API_KEY cfg) = true.

(** Enter the [try] block and name the request. *)
Ltac enter_search :=
  unfold calls, result, search_youtube_video; rewrite Hkey;
  cbn -[insert singletonM];
  change {| meth := GET; url := YOUTUBE_API_URL; headers := ∅;
            params := _; json := None |} with (youtube_request cfg query).

Lemma search_transport_failure (why : string) :
  net (youtube_request cfg query) = NoResponse why ->
  result net (search_youtube_video cfg query) = inr PyNone.
Proof. intros Hnet. enter_search. rewrite Hnet. reflexivity. Qed.

Lemma search_status_failure (r : response) :
  net (youtube_request cfg query) = Responded r ->
  is_success r = false ->
  result net (search_youtube_video cfg query) = inr PyNone.
Proof.
  intros Hnet Hs. enter_search. rewrite Hnet. cbn.
  unfold raise_for_status. rewrite Hs. reflexivity.
Qed.

Lemma search_no_items (r : response) (data : gmap string pyvalue) :
  net (youtube_request cfg query) = Responded r ->
  is_success r = true ->
  json_body r = Some (PyDict data) ->
  data !! "items" = Some (PyList []) ->
  result net (search_youtube_video cfg query) = inr PyNone.
Proof.
  intros Hnet Hs Hj Hi. enter_search. rewrite Hnet. cbn.
  unfold raise_for_status, response_json. rewrite Hs, Hj. cbn.
  rewrite Hi. reflexivity.
Qed.

Lemma search_first_item (r : response) (data item ids : gmap string pyvalue)
    (rest : list pyvalue) :
  net (youtube_request cfg query) = Responded r ->
  is_success r = true ->
  json_body r = Some (PyDict data) ->
  data !! "items" = Some (PyList (PyDict item :: rest)) ->
  item !! "id" = Some (PyDict ids) ->
  result net (search_youtube_video cfg query) =
    inr (default PyNone (ids !! "videoId")).
Proof.
  intros Hnet Hs Hj Hi Hid. enter_search. rewrite Hnet. cbn.
  unfold raise_for_status, response_json. rewrite Hs, Hj. cbn.
  rewrite Hi. cbn. rewrite Hid. reflexivity.
Qed.

(** The adapter makes its one call and never raises. *)
Lemma search_total :
  calls net (search_youtube_video cfg query) = [youtube_request cfg query] /\
  exists v, result net (search_youtube_video cfg query) = inr v.
Proof.
  enter_search.
  destruct (net _) as [why|r]; cbn; [eauto|].
  unfold raise_for_status, response_json.
  destruct (is_success r); cbn; [|eauto].
  destruct (json_body r) as [data|]; cbn; [|eauto].
  destruct data as [| | | | | |d]; cbn; eauto.
  destruct (d !! "items") as [items|]; cbn; [|eauto].
  destruct (truthy items); cbn; [|eauto].
  destruct items as [| | | |s|[|first l]|d']; cbn; eauto.
  - destruct (String.eqb s ""); cbn; eauto.
  - destruct first as [| | | | | |item]; cbn; eauto.
    destruct (default (PyDict ∅) (item !! "id")) as [| | | | | |ids]; cbn; eauto.
Qed.

End Search.

(** ** The lookup handler *)

Section Link.

Variable py_str : pyvalue -> string.
Variables (cfg : config) (query : string) (net : request -> outcome).

Lemma link_without_key :
  env_truthy (YOUTUBE_API_KEY cfg) = false ->
  run net (get_youtube_video_link py_str cfg query) =
    ([], inl (HTTPException 500
                "API key configuration error. Please check server logs.")).
Proof.
  intros Hkey. unfold get_youtube_video_link. rewrite Hkey. reflexivity.
Qed.

Lemma link_with_key (v : pyvalue) :
  env_truthy (YOUTUBE_API_KEY cfg) = true ->
  result net (search_youtube_video cfg query) = inr v ->
  result net (get_youtube_video_link py_str cfg query) =
    if truthy v then
      inr (PyDict {[ "video_url" :=
                       PyStr ("https://www.youtube.com/watch?v=" +:+ format py_str v) ]})
    else
      inl (HTTPException 404
             ("No relevant YouTube video found for query: '" +:+ query +:+ "'")).
Proof.
  intros Hkey Hv. unfold get_youtube_video_link. rewrite Hkey. cbn [negb].
  unfold result in *. rewrite run_bind, Hv.
  destruct (truthy v); reflexivity.
Qed.

Lemma link_calls :
  env_truthy (YOUTUBE_API_KEY cfg) = true ->
  calls net (get_youtube_video_link py_str cfg query) = [youtube_request cfg query].
Proof.
  intros Hkey.
  destruct (search_total cfg query net Hkey) as [Hc [v Hv]].
  unfold get_youtube_video_link. rewrite Hkey. cbn [negb].
  unfold calls, result in *. rewrite run_bind, Hv.
  destruct (truthy v); cbn; rewrite app_nil_r; exact Hc.
Qed.

End Link.

(** C5. With a credential configured and a successful search response:
    one item whose [id.videoId] is [abc123] gives 200 with the body
    [{"video_url": "https://www.youtube.com/watch?v=abc123"}]; an empty
    [items] list gives 404.  Without a credential the handler raises 500
    and nothing is sent. *)
Theorem video_search_endpoint
    (py_str : pyvalue -> string) (cfg : config) (query : string)
    (net : request -> outcome) :
  (forall r data item ids,
     env_truthy (YOUTUBE_API_KEY cfg) = true ->
     net (youtube_request cfg query) = Responded r ->
     is_success r = true ->
     json_body r = Some (PyDict data) ->
     data !! "items" = Some (PyList [PyDict item]) ->
     item !! "id" = Some (PyDict ids) ->
     ids !! "videoId" = Some (PyStr "abc123") ->
     reply (result net (get_youtube_video_link py_str cfg query)) =
       (200, JsonBody (PyDict {[ "video_url" :=
                 PyStr "https://www.youtube.com/watch?v=abc123" ]})))
  /\
  (forall r data,
     env_truthy (YOUTUBE_API_KEY cfg) = true ->
     net (youtube_request cfg query) = Responded r ->
     is_success r = true ->
     json_body r = Some (PyDict data) ->
     data !! "items" = Some (PyList []) ->
     exists detail,
       reply (result net (get_youtube_video_link py_str cfg query)) =
         (404, JsonBody (PyDict {[ "detail" := PyStr detail ]})))
  /\
  (env_truthy (YOUTUBE_API_KEY cfg) = false ->
   calls net (get_youtube_video_link py_str cfg query) = [] /\
   exists detail,
     reply (result net (get_youtube_video_link py_str cfg query)) =
       (500, JsonBody (PyDict {[ "detail" := PyStr detail ]}))).
Proof.
  split; [|split].
  - intros r data item ids Hkey Hnet Hs Hj Hi Hid Hv.
    rewrite (link_with_key py_str cfg query net (PyStr "abc123") Hkey).
    + reflexivity.
    + rewrite (search_first_item cfg query net Hkey r data item ids []
                 Hnet Hs Hj Hi Hid), Hv. reflexivity.
  - intros r data Hkey Hnet Hs Hj Hi.
    rewrite (link_with_key py_str cfg query net PyNone Hkey).
    + eexists. reflexivity.
    + exact (search_no_items cfg query net Hkey r data Hnet Hs Hj Hi).
  - intros Hkey. unfold calls, result.
    rewrite (link_without_key py_str cfg query net Hkey).
    split; [reflexivity|]. eexists. reflexivity.
Qed.

Lemma video_search_endpoint_witness :
  reply (result (Sample.answers (Responded Sample.one_item))
           (get_youtube_video_link Sample.py_str Sample.cfg "cats")) =
    (200, JsonBody (PyDict {[ "video_url" :=
              PyStr "https://www.youtube.com/watch?v=abc123" ]})) /\
  (exists detail,
     reply (result (Sample.answers (Responded Sample.no_items))
              (get_youtube_video_link Sample.py_str Sample.cfg "cats")) =
       (404, JsonBody (PyDict {[ "detail" := PyStr detail ]}))) /\
  calls (Sample.answers (Responded Sample.one_item))
    (get_youtube_video_link Sample.py_str Sample.no_key "cats") = [].
Proof.
  split; [|split].
  - apply (proj1 (video_search_endpoint Sample.py_str Sample.cfg "cats"
                    (Sample.answers (Responded Sample.one_item)))
             Sample.one_item
             {[ "kind" := PyStr "youtube#searchListResponse";
                "items" :=
                  PyList [PyDict {[ "id" :=
                            PyDict {[ "kind" := PyStr "youtube#video";
                                      "videoId" := PyStr "abc123" ]} ]}] ]}
             {[ "id" := PyDict {[ "kind" := PyStr "youtube#video";
                                  "videoId" := PyStr "abc123" ]} ]}
             {[ "kind" := PyStr "youtube#video"; "videoId" := PyStr "abc123" ]});
      reflexivity.
  - apply (proj1 (proj2 (video_search_endpoint Sample.py_str Sample.cfg "cats"
                    (Sample.answers (Responded Sample.no_items))))
             Sample.no_items {[ "items" := PyList [] ]});
      reflexivity.
  - apply (proj2 (proj2 (video_search_endpoint Sample.py_str Sample.no_key "cats"
                    (Sample.answers (Responded Sample.one_item))))).
    reflexivity.
Defined.

(** C6, as the code has it. A missing credential raises 500. With a
    credential, a transport failure, a response outside 200..299 and a
    successful response with an empty [items] list all raise the same
    404 with the same detail. *)
Theorem lookup_failures_collapse
    (py_str : pyvalue -> string) (cfg : config) (query : string)
    (net : request -> outcome) :
  (env_truthy (YOUTUBE_API_KEY cfg) = false ->
   result net (get_youtube_video_link py_str cfg query) =
     inl (HTTPException 500
            "API key configuration error. Please check server logs."))
  /\
  (env_truthy (YOUTUBE_API_KEY cfg) = true ->
   (exists why, net (youtube_request cfg query) = NoResponse why) \/
   (exists r, net (youtube_request cfg query) = Responded r /\
              is_success r = false) \/
   (exists r data, net (youtube_request cfg query) = Responded r /\
                   is_success r = true /\
                   json_body r = Some (PyDict data) /\
                   data !! "items" = Some (PyList [])) ->
   result net (get_youtube_video_link py_str cfg query) =
     inl (HTTPException 404
            ("No relevant YouTube video found for query: '" +:+ query +:+ "'"))).
Proof.
  split.
  - intros Hkey. unfold result.
    rewrite (link_without_key py_str cfg query net Hkey). reflexivity.
  - intros Hkey Hcase.
    rewrite (link_with_key py_str cfg query net PyNone Hkey); [reflexivity|].
    destruct Hcase as [[why Hnet]|[(r & Hnet & Hs)|(r & data & Hnet & Hs & Hj & Hi)]].
    + exact (search_transport_failure cfg query net Hkey why Hnet).
    + exact (search_status_failure cfg query net Hkey r Hnet Hs).
    + exact (search_no_items cfg query net Hkey r data Hnet Hs Hj Hi).
Qed.

Lemma lookup_failures_collapse_witness :
  result (Sample.answers (NoResponse "timed out"))
    (get_youtube_video_link Sample.py_str Sample.cfg "cats") =
  inl (HTTPException 404 "No relevant YouTube video found for query: 'cats'").
Proof.
  apply (proj2 (lookup_failures_collapse Sample.py_str Sample.cfg "cats"
                  (Sample.answers (NoResponse "timed out")))).
  - reflexivity.
  - left. exists "timed out". reflexivity.
Defined.

(** C6, as stated, fails: for the query [cats] a timed-out search call and
    a search that found nothing give the caller the same reply, so the two
    conditions cannot be told apart. *)
Lemma lookup_failure_indistinguishable :
  let link := get_youtube_video_link Sample.py_str Sample.cfg "cats" in
  ~ (reply (result (Sample.answers (NoResponse "timed out")) link) <>
     reply (result (Sample.answers (Responded Sample.no_items)) link)).
Proof. intros link Hne. apply Hne. reflexivity. Qed.

(** ** The query is quoted before it is handed to the HTTP client *)

Lemma replace_space_no_space (s : string) :
  Urllib.mem_char " " (Urllib.replace_space s) = false.
Proof.
  induction s as [|c s IH]; [reflexivity|].
  cbn [Urllib.replace_space Urllib.mem_char]. rewrite IH, orb_false_r.
  destruct (Ascii.eqb c " ") eqn:Hc; [reflexivity|].
  rewrite Ascii.eqb_sym. exact Hc.
Qed.

Lemma length_append (s t : string) :
  String.length (s +:+ t) = (String.length s + String.length t)%nat.
Proof. induction s as [|c s IH]; simpl; [reflexivity|]. f_equal. exact IH. Qed.

Lemma length_quoter (safe : string) (c : ascii) :
  (1 <= String.length (Urllib.quoter safe c))%nat.
Proof.
  unfold Urllib.quoter.
  destruct (Urllib.always_safe c || Urllib.mem_char c safe); cbn; lia.
Qed.

Lemma length_quote_ge (s safe : string) :
  (String.length s <= String.length (Urllib.quote s safe))%nat.
Proof.
  induction s as [|c s IH]; cbn [Urllib.quote String.length]; [lia|].
  rewrite length_append. pose proof (length_quoter safe c). lia.
Qed.

Lemma length_quote_gt (s safe : string) (c : ascii) :
  Urllib.mem_char c s = true ->
  Urllib.always_safe c = false ->
  Urllib.mem_char c safe = false ->
  (String.length s < String.length (Urllib.quote s safe))%nat.
Proof.
  intros Hin Hsafe Hkeep.
  induction s as [|c' s IH]; cbn [Urllib.quote String.length Urllib.mem_char] in *;
    [discriminate|].
  rewrite length_append.
  destruct (Ascii.eqb c c') eqn:Hc.
  - apply Ascii.eqb_eq in Hc. subst c'.
    pose proof (length_quote_ge s safe).
    unfold Urllib.quoter. rewrite Hsafe, Hkeep. cbn [orb String.length]. lia.
  - cbn [orb] in Hin. specialize (IH Hin).
    pose proof (length_quoter safe c'). lia.
Qed.

Lemma quote_plus_changes (s : string) (c : ascii) :
  Urllib.mem_char c s = true ->
  c = " "%char \/ Urllib.always_safe c = false ->
  Urllib.quote_plus s <> s.
Proof.
  intros Hin Hc Heq. unfold Urllib.quote_plus in Heq.
  destruct (Urllib.mem_char " " s) eqn:Hsp; cbn in Heq.
  - pose proof (replace_space_no_space (Urllib.quote s " ")) as Hno.
    rewrite Heq, Hsp in Hno. discriminate.
  - assert (Urllib.always_safe c = false) as Hsafe.
    { destruct Hc as [->|Hc]; [reflexivity|exact Hc]. }
    pose proof (length_quote_gt s "" c Hin Hsafe eq_refl) as Hlen.
    rewrite Heq in Hlen. lia.
Qed.

(** C10. With a credential configured, the lookup makes one call whose
    [q] parameter is [quote_plus(query)]; when the query holds a space or
    any other character that [quote_plus] does not keep, that parameter
    differs from the query. *)
Theorem query_is_pre_encoded
    (cfg : config) (query : string) (net : request -> outcome) (c : ascii) :
  env_truthy (YOUTUBE_API_KEY cfg) = true ->
  Urllib.mem_char c query = true ->
  c = " "%char \/ Urllib.always_safe c = false ->
  exists rq q,
    calls net (search_youtube_video cfg query) = [rq] /\
    params rq !! "q" = Some (PyStr q) /\
    q = Urllib.quote_plus query /\
    q <> query.
Proof.
  intros Hkey Hin Hc.
  exists (youtube_request cfg query), (Urllib.quote_plus query).
  split; [apply (search_total cfg query net Hkey)|].
  split; [reflexivity|].
  split; [reflexivity|].
  exact (quote_plus_changes query c Hin Hc).
Qed.

Lemma query_is_pre_encoded_witness :
  exists rq,
    calls (Sample.answers (Responded Sample.no_items))
      (search_youtube_video Sample.cfg "a b") = [rq] /\
    params rq !! "q" = Some (PyStr "a+b").
Proof.
  destruct (query_is_pre_encoded Sample.cfg "a b"
              (Sample.answers (Responded Sample.no_items)) " "%char)
    as (rq & q & Hcalls & Hq & Hval & _).
  - reflexivity.
  - reflexivity.
  - left. reflexivity.
  - exists rq. split; [exact Hcalls|]. rewrite Hq, Hval. reflexivity.
Defined.

(** * Further properties of the video lookup *)

Section Lookup.

Variables (cfg : config) (query : string) (net : request -> outcome).

Ltac open_search Hkey :=
  unfold events, calls, result, search_youtube_video; rewrite Hkey;
  cbn -[insert singletonM];
  change {| meth := GET; url := YOUTUBE_API_URL; headers := ∅;
            params := _; json := None |} with (youtube_request cfg query).

(** X1. The adapter never raises: whatever the network does it returns a
    value.  It makes its one call when a credential is configured and no
    call at all otherwise. *)
Theorem search_never_raises :
  (exists v, result net (search_youtube_video cfg query) = inr v) /\
  calls net (search_youtube_video cfg query) =
    if env_truthy (YOUTUBE_API_KEY cfg) then [youtube_request cfg query] else [].
Proof.
  destruct (env_truthy (YOUTUBE_API_KEY cfg)) eqn:Hkey.
  - destruct (search_total cfg query net Hkey) as [Hc Hv]. split; assumption.
  - unfold calls, result, search_youtube_video. rewrite Hkey. cbn.
    split; [eexists|]; reflexivity.
Qed.

(** X2. From a successful response with a non-empty [items] list the
    adapter reads the first item only: it returns that item's
    [id.videoId], and [None] when the item is no object, has an [id] that
    is no object, or has no [videoId]; the items after the first never
    matter. *)
Theorem search_reads_first_item
    (r : response) (data : gmap string pyvalue) (first : pyvalue)
    (rest : list pyvalue) :
  env_truthy (YOUTUBE_API_KEY cfg) = true ->
  net (youtube_request cfg query) = Responded r ->
  is_success r = true ->
  json_body r = Some (PyDict data) ->
  data !! "items" = Some (PyList (first :: rest)) ->
  result net (search_youtube_video cfg query) =
    inr match first with
        | PyDict item =>
            match item !! "id" with
            | None => PyNone
            | Some (PyDict ids) => default PyNone (ids !! "videoId")
            | Some _ => PyNone
            end
        | _ => PyNone
        end.
Proof.
  intros Hkey Hnet Hs Hj Hi. open_search Hkey. rewrite Hnet. cbn.
  unfold raise_for_status, response_json. rewrite Hs, Hj. cbn.
  rewrite Hi. cbn.
  destruct first as [| | | | | |item]; try reflexivity.
  cbn. destruct (item !! "id") as [[| | | | | |ids]|]; reflexivity.
Qed.

(** X3. What the adapter logs when the lookup fails: the transport error;
    the status and the body of a response outside 200..299; the decoding
    error of a body that is not JSON; the attribute error of a body that
    is JSON but no object.  Each time it returns [None] after its one
    call. *)
Theorem search_failure_log :
  env_truthy (YOUTUBE_API_KEY cfg) = true ->
  (forall why,
     net (youtube_request cfg query) = NoResponse why ->
     run net (search_youtube_video cfg query) =
       ([Sent (youtube_request cfg query);
         Printed (LogRequestError (RequestError why))], inr PyNone))
  /\
  (forall r,
     net (youtube_request cfg query) = Responded r ->
     is_success r = false ->
     run net (search_youtube_video cfg query) =
       ([Sent (youtube_request cfg query);
         Printed (LogErrorResponse (status_code r));
         Printed (LogResponseBody (text r))], inr PyNone))
  /\
  (forall r,
     net (youtube_request cfg query) = Responded r ->
     is_success r = true ->
     json_body r = None ->
     run net (search_youtube_video cfg query) =
       ([Sent (youtube_request cfg query);
         Printed (LogUnexpected JSONDecodeError)], inr PyNone))
  /\
  (forall r v,
     net (youtube_request cfg query) = Responded r ->
     is_success r = true ->
     json_body r = Some v ->
     (forall d, v <> PyDict d) ->
     run net (search_youtube_video cfg query) =
       ([Sent (youtube_request cfg query);
         Printed (LogUnexpected AttributeError)], inr PyNone)).
Proof.
  intros Hkey. repeat split.
  - intros why Hnet. unfold search_youtube_video. rewrite Hkey.
    cbn -[insert singletonM].
    change {| meth := GET; url := YOUTUBE_API_URL; headers := ∅;
              params := _; json := None |} with (youtube_request cfg query).
    rewrite Hnet. reflexivity.
  - intros r Hnet Hs. unfold search_youtube_video. rewrite Hkey.
    cbn -[insert singletonM].
    change {| meth := GET; url := YOUTUBE_API_URL; headers := ∅;
              params := _; json := None |} with (youtube_request cfg query).
    rewrite Hnet. cbn. unfold raise_for_status. rewrite Hs. reflexivity.
  - intros r Hnet Hs Hj. unfold search_youtube_video. rewrite Hkey.
    cbn -[insert singletonM].
    change {| meth := GET; url := YOUTUBE_API_URL; headers := ∅;
              params := _; json := None |} with (youtube_request cfg query).
    rewrite Hnet. cbn. unfold raise_for_status, response_json.
    rewrite Hs, Hj. reflexivity.
  - intros r v Hnet Hs Hj Hv. unfold search_youtube_video. rewrite Hkey.
    cbn -[insert singletonM].
    change {| meth := GET; url := YOUTUBE_API_URL; headers := ∅;
              params := _; json := None |} with (youtube_request cfg query).
    rewrite Hnet. cbn. unfold raise_for_status, response_json.
    rewrite Hs, Hj. cbn.
    destruct v as [| | | | | |d]; try reflexivity.
    destruct (Hv d eq_refl).
Qed.

End Lookup.

Lemma search_reads_first_item_witness :
  result (Sample.answers (Responded Sample.channel_first))
    (search_youtube_video Sample.cfg "cats") = inr PyNone.
Proof.
  rewrite (search_reads_first_item Sample.cfg "cats"
           (Sample.answers (Responded Sample.channel_first))
           Sample.channel_first
           {[ "items" :=
                PyList [PyDict {[ "id" := PyDict {[ "channelId" := PyStr "UC1" ]} ]};
                        PyDict {[ "id" := PyDict {[ "videoId" := PyStr "xyz" ]} ]}] ]}
           (PyDict {[ "id" := PyDict {[ "channelId" := PyStr "UC1" ]} ]})
           [PyDict {[ "id" := PyDict {[ "videoId" := PyStr "xyz" ]} ]}]);
    reflexivity.
Defined.

Lemma search_failure_log_witness :
  run (Sample.answers (Responded Sample.garbled))
    (search_youtube_video Sample.cfg "cats") =
  ([Sent (youtube_request Sample.cfg "cats");
    Printed (LogUnexpected JSONDecodeError)], inr PyNone).
Proof.
  apply (proj1 (proj2 (proj2 (search_failure_log Sample.cfg "cats"
                  (Sample.answers (Responded Sample.garbled)) eq_refl)))
           Sample.garbled); reflexivity.
Defined.

(** ** The lookup handler, for every answer of the network *)

(** X4. With a credential configured the lookup handler ends in one of
    two ways whatever the network does: it returns a [video_url], or it
    raises its 404.  No failure of the search call reaches the caller as
    a server error. *)
Theorem link_answers_200_or_404
    (py_str : pyvalue -> string) (cfg : config) (query : string)
    (net : request -> outcome) :
  env_truthy (YOUTUBE_API_KEY cfg) = true ->
  (exists url,
     result net (get_youtube_video_link py_str cfg query) =
       inr (PyDict {[ "video_url" := PyStr url ]})) \/
  result net (get_youtube_video_link py_str cfg query) =
    inl (HTTPException 404
           ("No relevant YouTube video found for query: '" +:+ query +:+ "'")).
Proof.
  intros Hkey.
  destruct (search_total cfg query net Hkey) as [_ [v Hv]].
  rewrite (link_with_key py_str cfg query net v Hkey Hv).
  destruct (truthy v); [left; eexists; reflexivity|right; reflexivity].
Qed.

Lemma link_answers_200_or_404_witness :
  (exists url,
     result (Sample.answers (Responded Sample.garbled))
       (get_youtube_video_link Sample.py_str Sample.cfg "cats") =
       inr (PyDict {[ "video_url" := PyStr url ]})) \/
  result (Sample.answers (Responded Sample.garbled))
    (get_youtube_video_link Sample.py_str Sample.cfg "cats") =
    inl (HTTPException 404 "No relevant YouTube video found for query: 'cats'").
Proof.
  apply (link_answers_200_or_404 Sample.py_str Sample.cfg "cats"
           (Sample.answers (Responded Sample.garbled))).
  reflexivity.
Defined.

(** X5. When the first item of a successful response has an object under
    [id], the handler's answer is decided by that object's [videoId]: a
    non-empty string gives the watch URL ending in that string; a missing
    [videoId], a [null] or an empty string gives the 404, even though the
    search did return items. *)
Theorem link_follows_first_id
    (py_str : pyvalue -> string) (cfg : config) (query : string)
    (net : request -> outcome) (r : response)
    (data item ids : gmap string pyvalue) (rest : list pyvalue) :
  env_truthy (YOUTUBE_API_KEY cfg) = true ->
  net (youtube_request cfg query) = Responded r ->
  is_success r = true ->
  json_body r = Some (PyDict data) ->
  data !! "items" = Some (PyList (PyDict item :: rest)) ->
  item !! "id" = Some (PyDict ids) ->
  (forall vid,
     ids !! "videoId" = Some (PyStr vid) -> vid <> "" ->
     result net (get_youtube_video_link py_str cfg query) =
       inr (PyDict {[ "video_url" :=
                        PyStr ("https://www.youtube.com/watch?v=" +:+ vid) ]}))
  /\
  (ids !! "videoId" = None \/ ids !! "videoId" = Some PyNone \/
   ids !! "videoId" = Some (PyStr "") ->
   result net (get_youtube_video_link py_str cfg query) =
     inl (HTTPException 404
            ("No relevant YouTube video found for query: '" +:+ query +:+ "'"))).
Proof.
  intros Hkey Hnet Hs Hj Hi Hid.
  pose proof (search_first_item cfg query net Hkey r data item ids rest
                Hnet Hs Hj Hi Hid) as Hv.
  rewrite (link_with_key py_str cfg query net _ Hkey Hv).
  split.
  - intros vid Hvid Hne. rewrite Hvid. cbn.
    destruct (String.eqb vid "") eqn:He; [|reflexivity].
    apply String.eqb_eq in He. contradiction.
  - intros [->|[->| ->]]; reflexivity.
Qed.

Lemma link_follows_first_id_witness :
  result (Sample.answers (Responded Sample.channel_first))
    (get_youtube_video_link Sample.py_str Sample.cfg "cats") =
  inl (HTTPException 404 "No relevant YouTube video found for query: 'cats'").
Proof.
  apply (proj2 (link_follows_first_id Sample.py_str Sample.cfg "cats"
                  (Sample.answers (Responded Sample.channel_first))
                  Sample.channel_first
                  {[ "items" :=
                       PyList [PyDict {[ "id" := PyDict {[ "channelId" := PyStr "UC1" ]} ]};
                               PyDict {[ "id" := PyDict {[ "videoId" := PyStr "xyz" ]} ]}] ]}
                  {[ "id" := PyDict {[ "channelId" := PyStr "UC1" ]} ]}
                  {[ "channelId" := PyStr "UC1" ]}
                  [PyDict {[ "id" := PyDict {[ "videoId" := PyStr "xyz" ]} ]}]
                  eq_refl eq_refl eq_refl eq_refl eq_refl eq_refl)).
  left. reflexivity.
Defined.

(** ** What [quote_plus] does to the query *)

Lemma quote_safe (s : string) :
  all_safe s = true -> Urllib.quote_plus s = s.
Proof.
  intros Hs.
  assert (Urllib.mem_char " " s = false /\ Urllib.quote s "" = s) as [Hsp Hq].
  { induction s as [|c s IH]; [split; reflexivity|].
    cbn [all_safe] in Hs. apply andb_prop in Hs as [Hc Hs].
    destruct (IH Hs) as [IH1 IH2].
    cbn [Urllib.mem_char Urllib.quote]. unfold Urllib.quoter.
    rewrite Hc, IH1, IH2. cbn [orb]. split; [|reflexivity].
    destruct (Ascii.eqb " " c) eqn:He; [|reflexivity].
    apply Ascii.eqb_eq in He. subst c. discriminate Hc. }
  unfold Urllib.quote_plus. rewrite Hsp. exact Hq.
Qed.

Lemma all_safe_false (s : string) :
  all_safe s = false ->
  exists c, Urllib.mem_char c s = true /\ Urllib.always_safe c = false.
Proof.
  induction s as [|c s IH]; [discriminate|].
  cbn [all_safe Urllib.mem_char]. intros H.
  destruct (Urllib.always_safe c) eqn:Hc.
  - destruct (IH H) as (d & Hd & Hsafe). exists d.
    rewrite Hd, orb_true_r. split; [reflexivity|exact Hsafe].
  - exists c. rewrite Ascii.eqb_refl. split; [reflexivity|exact Hc].
Qed.

(** X6. The [q] parameter handed to the HTTP client is the query itself
    exactly when the query is made of letters, digits and [_.-~] only. *)
Theorem query_verbatim_iff_safe
    (cfg : config) (query : string) (net : request -> outcome) :
  env_truthy (YOUTUBE_API_KEY cfg) = true ->
  exists rq,
    calls net (search_youtube_video cfg query) = [rq] /\
    (params rq !! "q" = Some (PyStr query) <-> all_safe query = true).
Proof.
  intros Hkey. exists (youtube_request cfg query).
  split; [apply (search_total cfg query net Hkey)|].
  change (params (youtube_request cfg query) !! "q")
    with (Some (PyStr (Urllib.quote_plus query))).
  split.
  - intros [= Hq]. destruct (all_safe query) eqn:Hs; [reflexivity|].
    destruct (all_safe_false query Hs) as (c & Hin & Hc).
    destruct (quote_plus_changes query c Hin (or_intror Hc) Hq).
  - intros Hs. rewrite (quote_safe query Hs). reflexivity.
Qed.

Lemma query_verbatim_iff_safe_witness :
  exists rq,
    calls (Sample.answers (Responded Sample.no_items))
      (search_youtube_video Sample.cfg "rick_roll-1987") = [rq] /\
    params rq !! "q" = Some (PyStr "rick_roll-1987").
Proof.
  destruct (query_verbatim_iff_safe Sample.cfg "rick_roll-1987"
              (Sample.answers (Responded Sample.no_items)) eq_refl)
    as (rq & Hcalls & Hq).
  exists rq. split; [exact Hcalls|]. apply Hq. reflexivity.
Defined.

Ltac each_byte c := destruct c as [[] [] [] [] [] [] [] []].

Lemma replace_space_app (s t : string) :
  Urllib.replace_space (s +:+ t) =
  Urllib.replace_space s +:+ Urllib.replace_space t.
Proof. induction s as [|c s IH]; simpl; [reflexivity|]. rewrite IH. reflexivity. Qed.

Lemma quoter_keeping_space (c : ascii) :
  Urllib.replace_space (Urllib.quoter " " c) = plus_byte c.
Proof. each_byte c; reflexivity. Qed.

Lemma quoter_without_space (c : ascii) :
  c <> " "%char -> Urllib.quoter "" c = plus_byte c.
Proof. each_byte c; intros Hc; try reflexivity. destruct Hc. reflexivity. Qed.

(** [quote_plus] works byte by byte, on both of its paths. *)
Lemma quote_plus_bytes (s : string) : Urllib.quote_plus s = plus_bytes s.
Proof.
  unfold Urllib.quote_plus.
  destruct (Urllib.mem_char " " s) eqn:Hsp; cbn [negb].
  - clear Hsp. induction s as [|c s IH]; [reflexivity|].
    cbn [Urllib.quote plus_bytes].
    rewrite replace_space_app, quoter_keeping_space, IH. reflexivity.
  - induction s as [|c s IH]; [reflexivity|].
    cbn [Urllib.mem_char] in Hsp. apply orb_false_elim in Hsp as [Hc Hsp].
    cbn [Urllib.quote plus_bytes]. rewrite (IH Hsp).
    rewrite quoter_without_space; [reflexivity|].
    intros ->. discriminate Hc.
Qed.

Lemma unquote_plus_byte (c : ascii) (t : string) :
  unquote_plus (plus_byte c +:+ t) = String c (unquote_plus t).
Proof. each_byte c; reflexivity. Qed.

Lemma unquote_plus_bytes (s : string) : unquote_plus (plus_bytes s) = s.
Proof.
  induction s as [|c s IH]; [reflexivity|].
  cbn [plus_bytes]. rewrite unquote_plus_byte, IH. reflexivity.
Qed.

(** X7. Quoting loses nothing: two lookups that hand the same request to
    the HTTP client were made for the same query. *)
Theorem quoted_query_is_faithful
    (cfg : config) (q1 q2 : string) (net1 net2 : request -> outcome) :
  env_truthy (YOUTUBE_API_KEY cfg) = true ->
  calls net1 (search_youtube_video cfg q1) =
  calls net2 (search_youtube_video cfg q2) ->
  q1 = q2.
Proof.
  intros Hkey Hcalls.
  rewrite (proj1 (search_total cfg q1 net1 Hkey)) in Hcalls.
  rewrite (proj1 (search_total cfg q2 net2 Hkey)) in Hcalls.
  apply (f_equal (fun l : list request =>
                    match l with
                    | [rq] => params rq !! "q"
                    | _ => None
                    end)) in Hcalls.
  change (Some (PyStr (Urllib.quote_plus q1)) =
          Some (PyStr (Urllib.quote_plus q2))) in Hcalls.
  injection Hcalls as Hq.
  rewrite <- (unquote_plus_bytes q1), <- (unquote_plus_bytes q2).
  rewrite <- !quote_plus_bytes, Hq. reflexivity.
Qed.

Lemma quoted_query_is_faithful_witness : "a b" = "a b".
Proof.
  apply (quoted_query_is_faithful Sample.cfg "a b" "a b"
           (Sample.answers (NoResponse "timed out"))
           (Sample.answers (Responded Sample.no_items)));
    reflexivity.
Defined.

Lemma mem_char_app (d : ascii) (s t : string) :
  Urllib.mem_char d (s +:+ t) = Urllib.mem_char d s || Urllib.mem_char d t.
Proof.
  induction s as [|c s IH]; simpl; [reflexivity|].
  rewrite IH, orb_assoc. reflexivity.
Qed.

Lemma plus_byte_chars (c d : ascii) :
  Urllib.mem_char d (plus_byte c) = true ->
  Urllib.always_safe d = true \/ d = "+"%char \/ d = "%"%char.
Proof.
  each_byte c; cbn; intros H;
    repeat (apply orb_prop in H as [H|H]); try discriminate H;
    apply Ascii.eqb_eq in H; subst d; auto.
Qed.

(** X8. The [q] parameter is made of letters, digits, [_.-~], plus signs
    and percent signs only, whatever bytes the query holds. *)
Theorem quoted_query_charset
    (cfg : config) (query : string) (net : request -> outcome) :
  env_truthy (YOUTUBE_API_KEY cfg) = true ->
  exists rq q,
    calls net (search_youtube_video cfg query) = [rq] /\
    params rq !! "q" = Some (PyStr q) /\
    forall d, Urllib.mem_char d q = true ->
              Urllib.always_safe d = true \/ d = "+"%char \/ d = "%"%char.
Proof.
  intros Hkey. exists (youtube_request cfg query), (Urllib.quote_plus query).
  split; [apply (search_total cfg query net Hkey)|].
  split; [reflexivity|].
  rewrite quote_plus_bytes. clear.
  induction query as [|c s IH]; intros d; [discriminate|].
  cbn [plus_bytes]. rewrite mem_char_app. intros [H|H]%orb_prop.
  - exact (plus_byte_chars c d H).
  - exact (IH d H).
Qed.

Lemma quoted_query_charset_witness :
  exists rq q,
    calls (Sample.answers (Responded Sample.no_items))
      (search_youtube_video Sample.cfg "50% off & more") = [rq] /\
    params rq !! "q" = Some (PyStr q) /\
    Urllib.mem_char "&" q = false.
Proof.
  destruct (quoted_query_charset Sample.cfg "50% off & more"
              (Sample.answers (Responded Sample.no_items)) eq_refl)
    as (rq & q & Hcalls & Hq & Hchars).
  exists rq, q. split; [exact Hcalls|]. split; [exact Hq|].
  destruct (Urllib.mem_char "&" q) eqn:Hamp; [|reflexivity].
  destruct (Hchars _ Hamp) as [H|[H|H]]; discriminate H.
Defined.

(** * Further properties of the display operations *)

Lemma events_post_command cmd hs payload (net : request -> outcome) :
  let rq := {| meth := POST; url := SMARTSCREEN_API_URL; headers := hs;
               params := ∅; json := Some payload |} in
  events net (SmartScreenClient.post_command cmd hs payload) =
  Sent rq ::
  match net rq with
  | NoResponse _ => []
  | Responded r =>
      if status_code r =? 200 then
        match json_body r with
        | Some (PyDict d) =>
            if py_eq_int (default (PyInt (-1)) (d !! "ErrCode")) 0 then []
            else [Printed (LogError cmd (default (PyStr "Unknown error")
                                           (d !! "ErrMsg")))]
        | _ => []
        end
      else [Printed (LogFailed cmd (text r))]
  end.
Proof.
  unfold events, SmartScreenClient.post_command, client_post,
    SmartScreenClient.api_url; cbn.
  destruct (net _) as [why|r]; cbn; [reflexivity|].
  destruct (status_code r =? 200); cbn; [|reflexivity].
  unfold response_json.
  destruct (json_body r) as [[| | | | | |d]|]; cbn; try reflexivity.
  destruct (py_eq_int _ 0); reflexivity.
Qed.

(** The handler adds no event to those of its client method. *)
Lemma events_handler cfg op net :
  events net (handler cfg op) = events net (translator cfg op).
Proof.
  destruct (handler_shape cfg op) as (detail & body & ->).
  unfold events. rewrite run_bind.
  destruct (run net (translator cfg op)) as [t [e|[|]]]; cbn;
    rewrite ?app_nil_r; reflexivity.
Qed.


(** X10. The vendor's answer reaches the caller through the boolean of the
    client method and through nothing else: two networks on which the
    method ends alike give the same outcome of the handler. *)
Theorem handler_sees_only_the_boolean
    (cfg : config) (op : operation) (net1 net2 : request -> outcome) :
  result net1 (translator cfg op) = result net2 (translator cfg op) ->
  result net1 (handler cfg op) = result net2 (handler cfg op).
Proof.
  destruct (handler_shape cfg op) as (detail & body & ->).
  unfold result. rewrite !run_bind.
  destruct (run net1 (translator cfg op)) as [t1 r1],
           (run net2 (translator cfg op)) as [t2 r2]; cbn.
  intros ->. destruct r2 as [e|[|]]; reflexivity.
Qed.

Lemma handler_sees_only_the_boolean_witness :
  result (Sample.answers (Responded Sample.ok))
    (handler Sample.cfg Sample.hello) =
  result (Sample.answers (Responded Sample.ok_with_data))
    (handler Sample.cfg Sample.hello).
Proof.
  apply (handler_sees_only_the_boolean Sample.cfg Sample.hello
           (Sample.answers (Responded Sample.ok))
           (Sample.answers (Responded Sample.ok_with_data))).
  reflexivity.
Defined.

(** X11. A 200 answer whose body is not JSON makes the operation raise
    the decoding error, and one whose body is JSON but no object makes it
    raise an attribute error; the handler lets both through, so the caller
    gets the plain 500 and not the handler's own failure message. *)
Theorem undecodable_answer_raises
    (cfg : config) (op : operation) (net : request -> outcome) (r : response) :
  net (vendor_request cfg op) = Responded r ->
  status_code r = 200 ->
  (json_body r = None ->
   result net (handler cfg op) = inl JSONDecodeError /\
   reply (result net (handler cfg op)) = (500, PlainBody "Internal Server Error"))
  /\
  (forall v, json_body r = Some v -> (forall d, v <> PyDict d) ->
   result net (handler cfg op) = inl AttributeError /\
   reply (result net (handler cfg op)) = (500, PlainBody "Internal Server Error")).
Proof.
  intros Hnet Hs. split.
  - intros Hj.
    assert (result net (handler cfg op) = inl JSONDecodeError) as ->; [|auto].
    apply result_handler_raise. rewrite result_translator, Hnet. cbn.
    rewrite Hs, Hj. reflexivity.
  - intros v Hj Hv.
    assert (result net (handler cfg op) = inl AttributeError) as ->; [|auto].
    apply result_handler_raise. rewrite result_translator, Hnet. cbn.
    rewrite Hs, Hj. destruct v as [| | | | | |d]; try reflexivity.
    destruct (Hv d eq_refl).
Qed.

Lemma undecodable_answer_raises_witness :
  reply (result (Sample.answers (Responded Sample.garbled))
           (handler Sample.cfg Sample.hello)) =
  (500, PlainBody "Internal Server Error").
Proof.
  apply (proj1 (undecodable_answer_raises Sample.cfg Sample.hello
                  (Sample.answers (Responded Sample.garbled)) Sample.garbled
                  eq_refl eq_refl)).
  reflexivity.
Defined.

(** X12. What an operation logs: nothing on success; the vendor's [ErrMsg],
    or [Unknown error] when the answer has none, under the operation's
    name when [ErrCode] is not 0; the body text when the status is not
    200.  The request is the only other event. *)
Theorem vendor_failure_is_logged
    (cfg : config) (op : operation) (net : request -> outcome) (r : response) :
  net (vendor_request cfg op) = Responded r ->
  (status_code r <> 200 ->
   events net (handler cfg op) =
     [Sent (vendor_request cfg op); Printed (LogFailed (cmd_name op) (text r))])
  /\
  (forall d,
     status_code r = 200 -> json_body r = Some (PyDict d) ->
     events net (handler cfg op) =
       Sent (vendor_request cfg op) ::
       if py_eq_int (default (PyInt (-1)) (d !! "ErrCode")) 0 then []
       else [Printed (LogError (cmd_name op)
                        (default (PyStr "Unknown error") (d !! "ErrMsg")))]).
Proof.
  intros Hnet. rewrite events_handler, translator_post_command.
  rewrite (events_post_command (cmd_name op) (headers_of cfg op)
             (SmartScreenClient.envelope (display_of op) (command op)) net).
  cbv zeta. fold (vendor_request cfg op). rewrite Hnet. split.
  - intros Hs%Z.eqb_neq. rewrite Hs. reflexivity.
  - intros d Hs%Z.eqb_eq Hj. rewrite Hs, Hj. reflexivity.
Qed.

Lemma vendor_failure_is_logged_witness :
  events (Sample.answers (Responded Sample.vendor_error))
    (handler Sample.cfg Sample.hello) =
  [Sent (vendor_request Sample.cfg Sample.hello);
   Printed (LogError "notify" (PyStr "x"))].
Proof.
  rewrite (proj2 (vendor_failure_is_logged Sample.cfg Sample.hello
                    (Sample.answers (Responded Sample.vendor_error))
                    Sample.vendor_error eq_refl)
             {[ "ErrCode" := PyInt 1; "ErrMsg" := PyStr "x" ]} eq_refl eq_refl).
  reflexivity.
Defined.

(** X13. The coordinates of a drop request never reach the vendor: two
    requests that differ in [x] and [y] only produce the same events.
    They are only echoed: a successful drop returns its own [x] and [y]. *)
Theorem drop_coordinates_are_only_echoed
    (cfg : config) (display item : string) (x1 y1 x2 y2 : Z)
    (net : request -> outcome) :
  events net (drop_item cfg (DropRequest.Build_t display item x1 y1)) =
  events net (drop_item cfg (DropRequest.Build_t display item x2 y2))
  /\
  (forall body,
     result net (drop_item cfg (DropRequest.Build_t display item x1 y1)) =
       inr (PyDict body) ->
     body !! "x" = Some (PyInt x1) /\ body !! "y" = Some (PyInt y1) /\
     body !! "item" = Some (PyStr item)).
Proof.
  split.
  - pose proof (events_handler cfg (Drop (DropRequest.Build_t display item x1 y1)) net) as H1.
    pose proof (events_handler cfg (Drop (DropRequest.Build_t display item x2 y2)) net) as H2.
    cbn [handler translator] in H1, H2. rewrite H1, H2. reflexivity.
  - intros body. unfold result, drop_item. rewrite run_bind.
    destruct (run net (SmartScreenClient.drop cfg item display x1 y1)).2
      as [e|[|]]; cbn; try discriminate.
    intros [= <-]. repeat split; reflexivity.
Qed.

Lemma drop_coordinates_are_only_echoed_witness :
  ({[ "message" := PyStr "Item dropped successfully";
      "item" := PyStr "https://example.com/a.mp4";
      "x" := PyInt 3; "y" := PyInt 4 ]} : gmap string pyvalue) !! "x" =
  Some (PyInt 3).
Proof.
  apply (proj2 (drop_coordinates_are_only_echoed Sample.cfg "lobby"
                  "https://example.com/a.mp4" 3 4 0 0
                  (Sample.answers (Responded Sample.ok)))).
  reflexivity.
Defined.

(** X14. The two credentials stay apart: a display handler is the same
    program whatever the video API key is, and the lookup handler is the
    same program whatever the service token is. *)
Theorem credentials_stay_apart
    (py_str : pyvalue -> string) (cfg1 cfg2 : config) :
  (SMARTSCREEN_SERVICE_TOKEN cfg1 = SMARTSCREEN_SERVICE_TOKEN cfg2 ->
   forall op, handler cfg1 op = handler cfg2 op)
  /\
  (YOUTUBE_API_KEY cfg1 = YOUTUBE_API_KEY cfg2 ->
   forall query,
     get_youtube_video_link py_str cfg1 query =
     get_youtube_video_link py_str cfg2 query).
Proof.
  destruct cfg1 as [k1 t1], cfg2 as [k2 t2]; cbn. split.
  - intros -> op. destruct op as [[]|[]|[]|[]|[]|[]|[]|[]|[]]; reflexivity.
  - intros -> query. reflexivity.
Qed.

Lemma credentials_stay_apart_witness :
  handler Sample.cfg Sample.hello = handler Sample.no_key Sample.hello.
Proof.
  apply (proj1 (credentials_stay_apart Sample.py_str Sample.cfg Sample.no_key)).
  reflexivity.
Defined.

Lemma verdict_not_http (out : outcome) (status : Z) (detail : string) :
  verdict out <> inl (HTTPException status detail).
Proof.
  unfold verdict. destruct out as [why|r]; [discriminate|].
  destruct (status_code r =? 200); [|discriminate].
  destruct (json_body r) as [[| | | | | |d]|]; discriminate.
Qed.

(** X15. A display handler answers 200 exactly when its client method
    returned [True]; in every other case, raised exceptions included, it
    answers 500. *)
Theorem display_reply_status
    (cfg : config) (op : operation) (net : request -> outcome) :
  ((reply (result net (handler cfg op))).1 = 200 <->
   result net (translator cfg op) = inr true)
  /\
  ((reply (result net (handler cfg op))).1 = 200 \/
   (reply (result net (handler cfg op))).1 = 500).
Proof.
  pose proof (verdict_not_http (net (vendor_request cfg op))) as Hnot.
  rewrite <- result_translator in Hnot.
  destruct (handler_shape cfg op) as (detail & body & ->).
  unfold result in *. rewrite run_bind.
  destruct (run net (translator cfg op)) as [t [e|[|]]]; cbn in *.
  - destruct e as [| | | | | | |sc dt];
      try (split; [split; discriminate|right; reflexivity]).
    destruct (Hnot sc dt eq_refl).
  - split; [split; reflexivity|left; reflexivity].
  - split; [split; discriminate|right; reflexivity].
Qed.

(** ** The request determines what was asked *)

Ltac field_eq Hc k :=
  let H := fresh "Hk" in
  pose proof (f_equal (fun m : gmap string pyvalue => m !! k) Hc) as H;
  vm_compute in H;
  first [ discriminate H | injection H as H | clear H ].

Lemma vendor_request_inj (cfg : config) (op1 op2 : operation) :
  vendor_request cfg op1 = vendor_request cfg op2 ->
  display_of op1 = display_of op2 /\ command op1 = command op2.
Proof.
  intros H.
  pose proof (f_equal (fun rq : request =>
                match json rq with
                | Some (PyDict env) => env !! "to"
                | _ => None
                end) H) as Hto.
  pose proof (f_equal (fun rq : request =>
                match json rq with
                | Some (PyDict env) => env !! "data"
                | _ => None
                end) H) as Hdata.
  change (Some (PyDict {[ "name" := PyStr (display_of op1) ]}) =
          Some (PyDict {[ "name" := PyStr (display_of op2) ]})) in Hto.
  change (Some (PyDict (command op1)) = Some (PyDict (command op2))) in Hdata.
  split.
  - apply (f_equal (fun v => match v with
                             | Some (PyDict m) => m !! "name"
                             | _ => None
                             end)) in Hto.
    change (Some (PyStr (display_of op1)) = Some (PyStr (display_of op2))) in Hto.
    congruence.
  - congruence.
Qed.

(** X16. The request an operation sends tells which operation it was and
    what the caller supplied in every field except [x], [y] and
    [priority]: if two operations send the same request, they are the same
    kind of operation and their inbound requests agree on all other
    fields. *)
Theorem request_determines_the_operation
    (cfg : config) (op1 op2 : operation) (net1 net2 : request -> outcome) :
  calls net1 (handler cfg op1) = calls net2 (handler cfg op2) ->
  cmd_name op1 = cmd_name op2 /\
  forall name, unused_field name = false ->
               inbound op1 !! name = inbound op2 !! name.
Proof.
  rewrite !calls_handler. intros Hcalls.
  assert (vendor_request cfg op1 = vendor_request cfg op2) as Hrq.
  { apply (f_equal (fun l : list request =>
                      default (vendor_request cfg op1) (head l))) in Hcalls.
    exact Hcalls. }
  destruct (vendor_request_inj cfg op1 op2 Hrq) as [Hd Hc]. clear Hrq Hcalls.
  destruct op1 as [[]|[]|[]|[]|[]|[]|[]|[]|[]],
           op2 as [[]|[]|[]|[]|[]|[]|[]|[]|[]];
    cbn [display_of DropRequest.display NotifyRequest.display
         ToastRequest.display MarqueeRequest.display TextRequest.display
         AppRequest.display TouchRequest.display StatusRequest.display
         DjRequest.display] in Hd;
    field_eq Hc "cmd";
    field_eq Hc "msg"; field_eq Hc "src"; field_eq Hc "heading";
    field_eq Hc "icon"; field_eq Hc "transition"; field_eq Hc "duration";
    field_eq Hc "color"; field_eq Hc "size"; field_eq Hc "bgcolor";
    field_eq Hc "align"; field_eq Hc "frame"; field_eq Hc "animate";
    field_eq Hc "aniduration"; field_eq Hc "url"; field_eq Hc "option";
    field_eq Hc "value";
    clear Hc; subst; (split; [reflexivity|]); try (intros; reflexivity).
  all: intros name Hn; unfold unused_field in Hn;
    apply orb_false_elim in Hn as [Hn Hp];
    apply orb_false_elim in Hn as [Hx Hy];
    apply String.eqb_neq in Hx, Hy, Hp;
    cbn [inbound];
    rewrite !lookup_insert, !lookup_singleton;
    repeat case_decide; congruence.
Qed.

Lemma request_determines_the_operation_witness :
  inbound Sample.hello !! "message" =
  inbound (Notify (NotifyRequest.Build_t "lobby" "Hello" "low")) !! "message".
Proof.
  apply (proj2 (request_determines_the_operation Sample.cfg Sample.hello
                  (Notify (NotifyRequest.Build_t "lobby" "Hello" "low"))
                  (Sample.answers (Responded Sample.ok))
                  (Sample.answers (NoResponse "timed out")) eq_refl)).
  reflexivity.
Defined.

(** ** The adapter's own credential check *)

Ltac no_key_line :=
  rewrite ?not_elem_of_cons;
  repeat split; try discriminate; apply not_elem_of_nil.

Lemma search_events_with_key (cfg : config) (query : string)
    (net : request -> outcome) :
  env_truthy (YOUTUBE_API_KEY cfg) = true ->
  Printed LogKeyNotSet ∉ events net (search_youtube_video cfg query).
Proof.
  intros Hkey. unfold events, search_youtube_video. rewrite Hkey.
  cbn -[insert singletonM].
  destruct (net _) as [why|r]; cbn; [no_key_line|].
  unfold raise_for_status, response_json.
  destruct (is_success r); cbn; [|no_key_line].
  destruct (json_body r) as [data|]; cbn; [|no_key_line].
  destruct data as [| | | | | |d]; cbn; try no_key_line.
  destruct (d !! "items") as [items|]; cbn; [|no_key_line].
  destruct (truthy items); cbn; [|no_key_line].
  destruct items as [| | | |s|[|first l]|d']; cbn; try no_key_line.
  - destruct (String.eqb s ""); cbn; no_key_line.
  - destruct first as [| | | | | |item]; cbn; try no_key_line.
    destruct (default (PyDict ∅) (item !! "id")) as [| | | | | |ids]; cbn;
      no_key_line.
Qed.

(** X17. The lookup handler adds no event to those of the adapter, and the
    adapter's own message about a missing API key is never printed in a
    run of the handler: the handler's check fires first. *)
Theorem handler_guards_the_adapter
    (py_str : pyvalue -> string) (cfg : config) (query : string)
    (net : request -> outcome) :
  events net (get_youtube_video_link py_str cfg query) =
    (if env_truthy (YOUTUBE_API_KEY cfg)
     then events net (search_youtube_video cfg query)
     else []) /\
  (Printed LogKeyNotSet ∉ events net (get_youtube_video_link py_str cfg query)) /\
  (Printed LogKeyNotSet ∈
     events net (search_youtube_video
                   {| YOUTUBE_API_KEY := None;
                      SMARTSCREEN_SERVICE_TOKEN := SMARTSCREEN_SERVICE_TOKEN cfg |}
                   query)).
Proof.
  assert (events net (get_youtube_video_link py_str cfg query) =
          if env_truthy (YOUTUBE_API_KEY cfg)
          then events net (search_youtube_video cfg query) else []) as Hev.
  { unfold events, get_youtube_video_link.
    destruct (env_truthy (YOUTUBE_API_KEY cfg)) eqn:Hkey; cbn [negb];
      [|reflexivity].
    rewrite run_bind.
    destruct (search_total cfg query net Hkey) as [_ [v Hv]].
    unfold result in Hv. rewrite Hv.
    destruct (truthy v); cbn; rewrite app_nil_r; reflexivity. }
  split; [exact Hev|]. split.
  - rewrite Hev. destruct (env_truthy (YOUTUBE_API_KEY cfg)) eqn:Hkey.
    + apply (search_events_with_key cfg query net Hkey).
    + apply not_elem_of_nil.
  - cbn. apply elem_of_cons. left. reflexivity.
Qed.

Lemma display_reply_status_witness :
  (reply (result (Sample.answers (Responded Sample.ok))
            (handler Sample.cfg Sample.hello))).1 = 200.
Proof.
  apply (proj1 (display_reply_status Sample.cfg Sample.hello
                  (Sample.answers (Responded Sample.ok)))).
  reflexivity.
Defined.
